(** * ai-search.js: search, fetch, extract and synthesize

    A shallow embedding of [src/ai-search.js] and the properties of its
    four-stage pipeline.  The program talks to the outside world only through
    [axios], [puppeteer], [cheerio] and [console]; those calls are answered
    by an environment record over an abstract world state, every awaited call
    may reject, and every run leaves the list of the calls it made. *)

From Stdlib Require Import String Ascii List ZArith Lia Bool Arith.
Import ListNotations.
Open Scope string_scope.
Set Warnings "-register-all".

(** ** JavaScript values and the builtins the program uses *)

Module JS.

(** A parsed JSON document, or the raw body as a string when it is not
    JSON: what [axios] hands back as [response.data], and what it is given as
    a request body.  A number is kept as an integer: the program never
    computes with one. *)
Inductive Value : Type :=
| JUndefined
| JNull
| JBool (b : bool)
| JNum (n : Z)
| JStr (s : string)
| JArr (elems : list Value)
| JObj (props : list (string * Value)).

(** Outcome of evaluating an expression or awaiting a promise. *)
Inductive Result (A : Type) : Type :=
| Returned (a : A)
| Thrown (message : string).
Arguments Returned {A} a.
Arguments Thrown {A} message.

Definition TypeError : string := "TypeError".

Definition quote : string := String (ascii_of_nat 34) EmptyString.
Definition newline : string := String (ascii_of_nat 10) EmptyString.

(** Own property of an object. *)
Fixpoint own (k : string) (props : list (string * Value)) : option Value :=
  match props with
  | [] => None
  | (k', v) :: rest => if String.eqb k k' then Some v else own k rest
  end.

(** The property names the program reads from a response.  None of them is
    defined by a builtin prototype, so only an object can have one. *)
Inductive Key : Type :=
  Kchoices | Kmessage | Kcontent | Kcandidates | Kparts | Ktext.

Definition key_name (k : Key) : string :=
  match k with
  | Kchoices => "choices"
  | Kmessage => "message"
  | Kcontent => "content"
  | Kcandidates => "candidates"
  | Kparts => "parts"
  | Ktext => "text"
  end.

(** [v.k]: reading a property of [undefined] or [null] throws, every other
    value answers, with [undefined] for what it lacks. *)
Definition get_prop (v : Value) (k : Key) : Result Value :=
  match v with
  | JUndefined | JNull => Thrown TypeError
  | JObj props =>
      Returned (match own (key_name k) props with
                | Some x => x
                | None => JUndefined
                end)
  | JBool _ | JNum _ | JStr _ | JArr _ => Returned JUndefined
  end.

(** [v[0]]. *)
Definition get_first (v : Value) : Result Value :=
  match v with
  | JUndefined | JNull => Thrown TypeError
  | JArr l => Returned (match l with x :: _ => x | [] => JUndefined end)
  | JStr s =>
      Returned (match s with
                | String c _ => JStr (String c EmptyString)
                | EmptyString => JUndefined
                end)
  | JObj props =>
      Returned (match own "0" props with Some x => x | None => JUndefined end)
  | JBool _ | JNum _ => Returned JUndefined
  end.

Definition nullish (v : Value) : bool :=
  match v with
  | JUndefined | JNull => true
  | _ => false
  end.

Definition truthy (v : Value) : bool :=
  match v with
  | JUndefined | JNull => false
  | JBool b => b
  | JNum n => negb (Z.eqb n 0)
  | JStr s => negb (String.eqb s EmptyString)
  | JArr _ | JObj _ => true
  end.

(** [a || b]. *)
Definition or_else (a b : Value) : Value := if truthy a then a else b.

(** *** Strings and arrays *)

(** Code units that [String.prototype.trim] strips (those below 256). *)
Definition is_white_space (c : ascii) : bool :=
  let n := nat_of_ascii c in
  (Nat.leb 9 n && Nat.leb n 13) || Nat.eqb n 32 || Nat.eqb n 160.

Fixpoint trimStart (s : string) : string :=
  match s with
  | EmptyString => EmptyString
  | String c rest => if is_white_space c then trimStart rest else s
  end.

Fixpoint trimEnd (s : string) : string :=
  match s with
  | EmptyString => EmptyString
  | String c rest =>
      match trimEnd rest with
      | EmptyString => if is_white_space c then EmptyString
                       else String c EmptyString
      | kept => String c kept
      end
  end.

Definition trim (s : string) : string := trimEnd (trimStart s).

(** A relative index of [slice], clamped into [0 .. len]. *)
Definition clamp (i : Z) (len : nat) : nat :=
  if (i <? 0)%Z then Z.to_nat (Z.max (Z.of_nat len + i) 0)
  else Nat.min (Z.to_nat i) len.

(** [s.slice(from, to)]. *)
Definition str_slice (s : string) (from to : Z) : string :=
  let a := clamp from (String.length s) in
  let b := clamp to (String.length s) in
  substring a (b - a) s.

(** [l.slice(from, to)]. *)
Definition arr_slice {A : Type} (l : list A) (from to : Z) : list A :=
  let a := clamp from (List.length l) in
  let b := clamp to (List.length l) in
  firstn (b - a) (skipn a l).

(** [l.join(sep)] on an array of strings. *)
Definition join (sep : string) (l : list string) : string :=
  String.concat sep l.

(** Evaluation in sequence: a throw ends it. *)
Definition and_then {A B} (r : Result A) (k : A -> Result B) : Result B :=
  match r with
  | Returned a => k a
  | Thrown e => Thrown e
  end.

(** [v?.rest]: on [undefined] or [null] the rest of the chain is skipped and
    the chain is [undefined]. *)
Definition optional (v : Value) (rest : Value -> Result Value)
  : Result Value :=
  if nullish v then Returned JUndefined else rest v.

(** [v.trim()]: only a string has a callable [trim]. *)
Definition call_trim (v : Value) : Result string :=
  match v with
  | JStr s => Returned (trim s)
  | _ => Thrown TypeError
  end.

(** [v.toUpperCase()]: only a string has a callable [toUpperCase]; on any
    other value the call throws.  The program prints the upper-case string
    and does nothing else with it, so only the throw is kept. *)
Definition call_toUpperCase (v : Value) : Result unit :=
  match v with
  | JStr _ => Returned tt
  | _ => Thrown TypeError
  end.

(** [v === 'literal']: no value but that very string is equal to it. *)
Definition strict_equal (v : Value) (literal : string) : bool :=
  match v with
  | JStr s => String.eqb s literal
  | _ => false
  end.

End JS.
Import JS.

Declare Scope result_scope.
Delimit Scope result_scope with result.
Notation "x <~ r ;; k" := (and_then r (fun x => k))
  (at level 61, r at next level, right associativity) : result_scope.
Notation "v ?. rest" := (optional v rest)
  (at level 61, right associativity, only parsing) : result_scope.
Open Scope result_scope.

(** ** The outside world *)

Definition Browser := nat.
Definition Page := nat.

(** An entry of [response.data.items] of the search backend, a field being
    absent when the backend leaves it out. *)
Record Item : Type := { item_title : option string; item_link : option string }.

(** [{ title, link }], as [googleSearch] builds it; [None] is [undefined]. *)
Record Locator : Type := { title : option string; link : option string }.

(** The calls a run makes, in the order it makes them.  Of the console, the
    three lines that report how the run ended are kept; the progress and
    error-detail lines are not.  One progress line can throw, where it
    upper-cases the model selector: [main] keeps that throw. *)
Inductive Event : Type :=
| AxiosGet (url : option string)
| AxiosPost (url : string) (body headers : Value)
| PuppeteerLaunch
| BrowserNewPage (b : Browser)
| PageGoto (p : Page) (url : option string)
| PageEvaluate (p : Page)
| BrowserClose (b : Browser)
| ConsoleLog (line : string)
| ConsoleError (line : string)
| ConsoleLogSummary (summary : Value).

(** How the world answers.  [Thrown] is a rejected promise: a transport or
    provider error, a timeout ([AbortSignal.timeout(5000)] for a page read
    with axios, [timeout: 10000] for a navigation), a body that cannot be
    read.  [search_get] is [axios.get] on the search backend followed by the
    reading of [response.data.items] ([None] when the field is missing);
    [cheerio_paragraphs] is [cheerio.load] followed by the text of each [p]
    element; [page_evaluate] gives the [innerText] of each [p] element of the
    rendered page.  [encodeURIComponent] is the builtin, which does not
    throw on a string taken from the command line. *)
Record Env (W : Type) : Type := {
  encodeURIComponent : string -> string;
  search_get : string -> W -> Result (option (list Item)) * W;
  axios_get : option string -> W -> Result Value * W;
  cheerio_paragraphs : Value -> Result (list string);
  puppeteer_launch : W -> Result Browser * W;
  browser_newPage : Browser -> W -> Result Page * W;
  page_goto : Page -> option string -> W -> Result unit * W;
  page_evaluate : Page -> W -> Result (list string) * W;
  browser_close : Browser -> W -> Result unit * W;
  axios_post : string -> Value -> Value -> W -> Result Value * W
}.
Arguments encodeURIComponent {W} _ _.
Arguments search_get {W} _ _ _.
Arguments axios_get {W} _ _ _.
Arguments cheerio_paragraphs {W} _ _.
Arguments puppeteer_launch {W} _ _.
Arguments browser_newPage {W} _ _ _.
Arguments page_goto {W} _ _ _ _.
Arguments page_evaluate {W} _ _ _.
Arguments browser_close {W} _ _ _.
Arguments axios_post {W} _ _ _ _ _.

(** What the program reads once at startup: the keys of the environment and
    the command line as [minimist] parsed it, with the fetch-library
    selector as a string and the result count as an integer.  The model
    selector is the value [minimist] gives: a string, a number for
    [--model 5], [true] for a bare [--model], an array when the option is
    repeated.  The script exits before [main] when the query is empty. *)
Record Config : Type := {
  GOOGLE_API_KEY : string;
  GOOGLE_CX : string;
  OPENAI_API_KEY : string;
  GEMINI_API_KEY : string;
  fetchLibrary : string;
  numResults : Z;
  model : Value;
  query : string
}.

(** ** Computations: world in, outcome, world and calls out *)

Definition M (W A : Type) : Type := W -> Result A * W * list Event.

Definition ret {W A} (a : A) : M W A := fun w => (Returned a, w, []).

Definition bind {W A B} (m : M W A) (k : A -> M W B) : M W B :=
  fun w =>
    match m w with
    | (Returned a, w1, t1) =>
        match k a w1 with
        | (r, w2, t2) => (r, w2, (t1 ++ t2)%list)
        end
    | (Thrown e, w1, t1) => (Thrown e, w1, t1)
    end.

(** [try { m } catch (error) { handler }]. *)
Definition try_catch {W A} (m : M W A) (handler : string -> M W A) : M W A :=
  fun w =>
    match m w with
    | (Returned a, w1, t1) => (Returned a, w1, t1)
    | (Thrown e, w1, t1) =>
        match handler e w1 with
        | (r, w2, t2) => (r, w2, (t1 ++ t2)%list)
        end
    end.

(** [try { m } finally { cleanup }]: the cleanup runs whatever [m] did, and
    what it throws replaces the outcome of [m]. *)
Definition try_finally {W A} (m : M W A) (cleanup : M W unit) : M W A :=
  fun w =>
    match m w with
    | (r, w1, t1) =>
        match cleanup w1 with
        | (Returned _, w2, t2) => (r, w2, (t1 ++ t2)%list)
        | (Thrown e, w2, t2) => (Thrown e, w2, (t1 ++ t2)%list)
        end
    end.

(** An awaited call: the event, then the world's answer. *)
Definition await {W A} (ev : Event) (call : W -> Result A * W) : M W A :=
  fun w => match call w with (r, w1) => (r, w1, [ev]) end.

Definition emit {W} (ev : Event) : M W unit := fun w => (Returned tt, w, [ev]).

(** A property read or a method call, which may throw. *)
Definition eval {W A} (r : Result A) : M W A := fun w => (r, w, []).

Declare Scope js_scope.
Delimit Scope js_scope with js.
Notation "x <- m ;; k" := (bind m (fun x => k))
  (at level 61, m at next level, right associativity) : js_scope.
Notation "m ;;; k" := (bind m (fun _ => k))
  (at level 61, right associativity) : js_scope.
Open Scope js_scope.

(** A function body with a local variable: the variable lives beside the
    world, so that a [finally] block still sees what the [try] block
    assigned before it threw. *)
Definition with_local {W L A} (init : L) (m : M (W * L) A) : M W A :=
  fun w => match m (w, init) with (r, (w1, _), t) => (r, w1, t) end.

Definition lift {W L A} (m : M W A) : M (W * L) A :=
  fun s => match m (fst s) with (r, w1, t) => (r, (w1, snd s), t) end.

Definition get_local {W L} : M (W * L) L := fun s => (Returned (snd s), s, []).

Definition set_local {W L} (l : L) : M (W * L) unit :=
  fun s => (Returned tt, (fst s, l), []).

(** ** The program *)

Definition no_meaningful_content : string := "No meaningful content found.".
Definition error_fetching_content : string := "Error fetching content.".
Definition error_generating_summary : string := "Error generating summary.".

(** [content.trim().length > 100 ? content.slice(0, 2000) : '...'], the last
    expression of both fetch strategies. *)
Definition excerpt (content : string) : string :=
  if Nat.ltb 100 (String.length (trim content)) then str_slice content 0 2000
  else no_meaningful_content.

Section Program.

Context {W : Type} (env : Env W) (cfg : Config).

Definition search_url (query : string) : string :=
  "https://www.googleapis.com/customsearch/v1?q="
  ++ encodeURIComponent env query
  ++ "&key=" ++ GOOGLE_API_KEY cfg ++ "&cx=" ++ GOOGLE_CX cfg.

(** [item => ({ title: item.title, link: item.link })]. *)
Definition locator_of (item : Item) : Locator :=
  {| title := item_title item; link := item_link item |}.

Definition googleSearch (query : string) : M W (list Locator) :=
  let url := search_url query in
  try_catch
    (response_data_items <- await (AxiosGet (Some url)) (search_get env url) ;;
     let items := match response_data_items with
                  | Some l => l
                  | None => []
                  end in
     ret (map locator_of (arr_slice items 0 (numResults cfg))))
    (fun error => ret []).

Definition fetchPageContentWithPuppeteer (url : option string) : M W string :=
  with_local (None : option Browser)
    (try_finally
       (try_catch
          (b <- lift (await PuppeteerLaunch (puppeteer_launch env)) ;;
           set_local (Some b) ;;;
           page <- lift (await (BrowserNewPage b) (browser_newPage env b)) ;;
           lift (await (PageGoto page url) (page_goto env page url)) ;;;
           paragraphs <- lift (await (PageEvaluate page)
                                     (page_evaluate env page)) ;;
           let content := join " " paragraphs in
           ret (excerpt content))
          (fun error => ret error_fetching_content))
       (browser <- get_local ;;
        match browser with
        | Some b => lift (await (BrowserClose b) (browser_close env b))
        | None => ret tt
        end)).

Definition fetchPageContentWithCheerio (url : option string) : M W string :=
  try_catch
    (response_data <- await (AxiosGet url) (axios_get env url) ;;
     paragraphs <- eval (cheerio_paragraphs env response_data) ;;
     let content := join " " paragraphs in
     ret (excerpt content))
    (fun error => ret error_fetching_content).

Definition openai_messages (query : string) (contents : list string) : Value :=
  JArr
    [JObj [("role", JStr "system");
           ("content",
            JStr "You are an assistant that generates a new, comprehensive response based on provided content. Synthesize new insights while being informative and cohesive.")];
     JObj [("role", JStr "user");
           ("content",
            JStr ("Generate new content that answers the query: "
                  ++ quote ++ query ++ quote ++ newline ++ newline
                  ++ "Here is the information gathered from various sources:"
                  ++ newline ++ newline
                  ++ join (newline ++ newline) contents))]].

Definition openaiEndpoint : string :=
  "https://api.openai.com/v1/chat/completions".

Definition openai_body (query : string) (contents : list string) : Value :=
  JObj [("model", JStr "gpt-4-turbo");
        ("messages", openai_messages query contents);
        ("max_tokens", JNum 250)].

Definition openai_headers : Value :=
  JObj [("Authorization", JStr ("Bearer " ++ OPENAI_API_KEY cfg));
        ("Content-Type", JStr "application/json")].

(** [response.data.choices[0].message.content.trim()]. *)
Definition openai_text (response_data : Value) : Result Value :=
  choices <~ get_prop response_data Kchoices ;;
  choice <~ get_first choices ;;
  message <~ get_prop choice Kmessage ;;
  content <~ get_prop message Kcontent ;;
  trimmed <~ call_trim content ;;
  Returned (JStr trimmed).

Definition summarizeWithOpenAI (query : string) (contents : list string)
  : M W Value :=
  let body := openai_body query contents in
  try_catch
    (response_data <- await (AxiosPost openaiEndpoint body openai_headers)
                        (axios_post env openaiEndpoint body openai_headers) ;;
     summary <- eval (openai_text response_data) ;;
     ret summary)
    (fun error => ret (JStr error_generating_summary)).

Definition gemini_contents (query : string) (contents : list string) : Value :=
  JArr
    [JObj [("role", JStr "user");
           ("parts",
            JArr [JObj [("text",
                         JStr ("Generate new content to answer the query: "
                               ++ quote ++ query ++ quote
                               ++ " based on the following information:"
                               ++ newline ++ newline
                               ++ join (newline ++ newline) contents))]])]].

Definition geminiEndpoint : string :=
  "https://generativelanguage.googleapis.com/v1beta/models/gemini-pro:generateContent".

Definition gemini_url : string :=
  geminiEndpoint ++ "?key=" ++ GEMINI_API_KEY cfg.

Definition gemini_body (query : string) (contents : list string) : Value :=
  JObj [("contents", gemini_contents query contents)].

Definition gemini_headers : Value :=
  JObj [("Content-Type", JStr "application/json")].

(** [response.data.candidates[0]?.content?.parts[0]?.text.trim()
     || 'Error generating summary.']. *)
Definition gemini_text (response_data : Value) : Result Value :=
  found <~
    (candidates <~ get_prop response_data Kcandidates ;;
     candidate <~ get_first candidates ;;
     candidate ?. fun candidate =>
     content <~ get_prop candidate Kcontent ;;
     content ?. fun content =>
     parts <~ get_prop content Kparts ;;
     part <~ get_first parts ;;
     part ?. fun part =>
     text <~ get_prop part Ktext ;;
     trimmed <~ call_trim text ;;
     Returned (JStr trimmed)) ;;
  Returned (or_else found (JStr error_generating_summary)).

Definition summarizeWithGemini (query : string) (contents : list string)
  : M W Value :=
  let body := gemini_body query contents in
  try_catch
    (response_data <- await (AxiosPost gemini_url body gemini_headers)
                        (axios_post env gemini_url body gemini_headers) ;;
     summary <- eval (gemini_text response_data) ;;
     ret summary)
    (fun error => ret (JStr error_generating_summary)).

(** The [for (const result of searchResults)] loop of [main]; [None] is the
    [return] from inside the loop. *)
Fixpoint fetch_loop (searchResults : list Locator) (contents : list string)
  : M W (option (list string)) :=
  match searchResults with
  | [] => ret (Some contents)
  | result :: rest =>
      if String.eqb (fetchLibrary cfg) "puppeteer" then
        content <- fetchPageContentWithPuppeteer (link result) ;;
        fetch_loop rest (contents ++ [content])%list
      else if String.eqb (fetchLibrary cfg) "cheerio" then
        content <- fetchPageContentWithCheerio (link result) ;;
        fetch_loop rest (contents ++ [content])%list
      else
        emit (ConsoleError "❌ Invalid fetch library specified.") ;;;
        ret None
  end.

Definition main : M W unit :=
  searchResults <- googleSearch (query cfg) ;;
  if Nat.eqb (List.length searchResults) 0 then
    emit (ConsoleLog "❌ No results found.")
  else
    fetched <- fetch_loop searchResults [] ;;
    match fetched with
    | None => ret tt
    | Some contents =>
        eval (call_toUpperCase (model cfg)) ;;;
        let instructions :=
          query cfg ++ " -- if there is nothing useful to say, simply say "
          ++ quote ++ "No results." ++ quote in
        summary <- (if strict_equal (model cfg) "gemini"
                    then summarizeWithGemini (query cfg) contents
                    else summarizeWithOpenAI (query cfg) contents) ;;
        emit (ConsoleLogSummary summary)
    end.

End Program.

(** ** What the fetch stage hands on *)

(** What a fetch strategy may hand to the synthesis stage. *)
Inductive Envelope (content : string) : string -> Prop :=
| Extracted :
    100 < String.length (trim content) ->
    Envelope content (substring 0 2000 content)
| NoMeaningfulContent :
    String.length (trim content) <= 100 ->
    Envelope content no_meaningful_content.

(** The post-processing as the specification words it, with the threshold on
    the length of the text itself. *)
Definition excerpt_as_specified (content : string) : string :=
  if Nat.ltb 100 (String.length content) then substring 0 2000 content
  else no_meaningful_content.

(** A content excerpt: text taken from a page, or one of the two sentinels. *)
Inductive Excerpt : string -> Prop :=
| FromPage content s : Envelope content s -> Excerpt s
| FetchError : Excerpt error_fetching_content.

(** Closing a browser never fails. *)
Definition teardown_ok {W} (env : Env W) : Prop :=
  forall b w, exists w', browser_close env b w = (Returned tt, w').

(** The [finally] block of the puppeteer strategy, once a browser is up:
    [pre] is what was called so far and [r] what the [try] and [catch]
    blocks decided to return. *)
Definition close_after {W} (env : Env W) (b : Browser) (w : W)
  (r : Result string) (pre : list Event) : Result string * W * list Event :=
  match browser_close env b w with
  | (Returned _, w') => (r, w', (pre ++ [BrowserClose b])%list)
  | (Thrown e, w') => (Thrown e, w', (pre ++ [BrowserClose b])%list)
  end.

(** The two fetch strategies of the specification. *)
Inductive Strategy : Type := LightweightFetch | RenderedFetch.

Definition fetch {W} (env : Env W) (s : Strategy)
  : option string -> M W string :=
  match s with
  | LightweightFetch => fetchPageContentWithCheerio env
  | RenderedFetch => fetchPageContentWithPuppeteer env
  end.

(** From world [w] the page at [url] is fetched without an error, its
    paragraphs are [ps], and the world is left as [w']. *)
Definition fetched {W} (env : Env W) (s : Strategy) (url : option string)
  (w : W) (ps : list string) (w' : W) : Prop :=
  match s with
  | LightweightFetch =>
      exists data,
        axios_get env url w = (Returned data, w')
        /\ cheerio_paragraphs env data = Returned ps
  | RenderedFetch =>
      exists b w1 p w2 w3 w4,
        puppeteer_launch env w = (Returned b, w1)
        /\ browser_newPage env b w1 = (Returned p, w2)
        /\ page_goto env p url w2 = (Returned tt, w3)
        /\ page_evaluate env p w3 = (Returned ps, w4)
        /\ browser_close env b w4 = (Returned tt, w')
  end.

Definition outcome {W A} (run : Result A * W * list Event) : Result A :=
  fst (fst run).

Definition calls {W A} (run : Result A * W * list Event) : list Event :=
  snd run.

Definition world_after {W A} (run : Result A * W * list Event) : W :=
  snd (fst run).

(** The strategy [main] is bound to by the [--fetch-library] selector. *)
Definition selected (cfg : Config) : option Strategy :=
  if String.eqb (fetchLibrary cfg) "puppeteer" then Some RenderedFetch
  else if String.eqb (fetchLibrary cfg) "cheerio" then Some LightweightFetch
  else None.

(** [f] is run on each element of the list in turn, each run starting in the
    world the one before left; [bs] are the values returned, in the order of
    the list, and [t] the calls made. *)
Inductive runs_each {W A B} (f : A -> M W B)
  : list A -> W -> list B -> list Event -> W -> Prop :=
| runs_done w : runs_each f [] w [] [] w
| runs_next a l w b w1 t1 bs t2 w2 :
    f a w = (Returned b, w1, t1) ->
    runs_each f l w1 bs t2 w2 ->
    runs_each f (a :: l) w (b :: bs) (t1 ++ t2) w2.

(** The page at [url] cannot be fetched from world [w]: the first call that
    fails is the request (cheerio), or the launch, the new page, the
    navigation or the evaluation (puppeteer). *)
Definition unfetched {W} (env : Env W) (s : Strategy) (url : option string)
  (w : W) : Prop :=
  match s with
  | LightweightFetch =>
      match axios_get env url w with
      | (Thrown _, _) => True
      | (Returned data, _) =>
          match cheerio_paragraphs env data with
          | Thrown _ => True
          | Returned _ => False
          end
      end
  | RenderedFetch =>
      match puppeteer_launch env w with
      | (Thrown _, _) => True
      | (Returned b, w1) =>
          match browser_newPage env b w1 with
          | (Thrown _, _) => True
          | (Returned p, w2) =>
              match page_goto env p url w2 with
              | (Thrown _, _) => True
              | (Returned _, w3) =>
                  match page_evaluate env p w3 with
                  | (Thrown _, _) => True
                  | (Returned _, _) => False
                  end
              end
          end
      end
  end.

(** The call that opens one invocation of a fetch strategy. *)
Definition opens (s : Strategy) (ev : Event) : bool :=
  match s, ev with
  | LightweightFetch, AxiosGet _ => true
  | RenderedFetch, PuppeteerLaunch => true
  | _, _ => false
  end.

(** ** Synthesis providers *)

(** The two providers of the specification: ProviderA is the chat-completion
    one (OpenAI), ProviderB the other (Gemini). *)
Inductive Provider : Type := ProviderA | ProviderB.

(** The provider [main] is bound to by the [--model] selector. *)
Definition provider (cfg : Config) : Provider :=
  if strict_equal (model cfg) "gemini" then ProviderB else ProviderA.

Definition synthesize {W} (env : Env W) (cfg : Config) (p : Provider)
  : string -> list string -> M W Value :=
  match p with
  | ProviderA => summarizeWithOpenAI env cfg
  | ProviderB => summarizeWithGemini env cfg
  end.

(** How a provider reads its answer. *)
Definition read_text (p : Provider) : Value -> Result Value :=
  match p with
  | ProviderA => openai_text
  | ProviderB => gemini_text
  end.

(** The request a provider sends. *)
Definition request (cfg : Config) (p : Provider) (query : string)
  (contents : list string) : Event :=
  match p with
  | ProviderA =>
      AxiosPost openaiEndpoint (openai_body query contents)
        (openai_headers cfg)
  | ProviderB =>
      AxiosPost (gemini_url cfg) (gemini_body query contents) gemini_headers
  end.

(** The world's answer to that request. *)
Definition answer {W} (env : Env W) (cfg : Config) (p : Provider)
  (query : string) (contents : list string) (w : W) : Result Value * W :=
  match request cfg p query contents with
  | AxiosPost url body headers => axios_post env url body headers w
  | _ => (Thrown TypeError, w)
  end.

(** A way into a response body: a named field, or the first element. *)
Inductive Step : Type := Field (k : Key) | First.

(** One step into a value; [None] when the field or the element is
    missing. *)
Definition step (s : Step) (v : Value) : option Value :=
  match s, v with
  | Field k, JObj props => own (key_name k) props
  | First, JArr (x :: _) => Some x
  | First, JObj props => own "0" props
  | First, JStr (String c _) => Some (JStr (String c EmptyString))
  | _, _ => None
  end.

Fixpoint resolve (path : list Step) (v : Value) : option Value :=
  match path with
  | [] => Some v
  | s :: rest =>
      match step s v with
      | Some x => resolve rest x
      | None => None
      end
  end.

(** Where each provider's answer carries the generated text. *)
Definition text_path (p : Provider) : list Step :=
  match p with
  | ProviderA => [Field Kchoices; First; Field Kmessage; Field Kcontent]
  | ProviderB => [Field Kcandidates; First; Field Kcontent; Field Kparts;
                  First; Field Ktext]
  end.

(** The generated text of a response body, when every field on the way to it
    is there and it is a string. *)
Definition generated_text (p : Provider) (data : Value) : option string :=
  match resolve (text_path p) data with
  | Some (JStr s) => Some s
  | _ => None
  end.

(** The search brought nothing: an error, or no item. *)
Definition no_items (reply : Result (option (list Item))) : Prop :=
  match reply with
  | Thrown _ => True
  | Returned None => True
  | Returned (Some items) => items = []
  end.

(** A transport or provider error, or a body without the generated text. *)
Definition unusable (p : Provider) (reply : Result Value) : Prop :=
  match reply with
  | Thrown _ => True
  | Returned data => generated_text p data = None
  end.

(** [needle] occurs in [hay]. *)
Fixpoint contains (needle hay : string) : bool :=
  prefix needle hay
  || match hay with
     | EmptyString => false
     | String _ rest => contains needle rest
     end.

(** Every string of a value, keys apart. *)
Fixpoint strings_of (v : Value) : list string :=
  match v with
  | JStr s => [s]
  | JArr l => flat_map strings_of l
  | JObj props =>
      flat_map (fun kv => match kv with (_, x) => strings_of x end) props
  | _ => []
  end.

(** A request whose body says [phrase] somewhere. *)
Definition says (phrase : string) (ev : Event) : bool :=
  match ev with
  | AxiosPost _ body _ => existsb (contains phrase) (strings_of body)
  | _ => false
  end.

Definition is_post (ev : Event) : bool :=
  match ev with
  | AxiosPost _ _ _ => true
  | _ => false
  end.

(** ** A scripted world

    Every answer is fixed in advance; the state is the address the browser
    last navigated to.  A page body is the array of its paragraphs. *)

Module Scripted.

Record Script : Type := {
  search_reply : Result (option (list Item));
  page_text : option string -> Result (list string);
  close_reply : Result unit;
  post_reply : Result Value
}.

Definition hex_digit (n : nat) : ascii :=
  ascii_of_nat (if Nat.ltb n 10 then 48 + n else 55 + n).

Definition unreserved (c : ascii) : bool :=
  let n := nat_of_ascii c in
  (Nat.leb 48 n && Nat.leb n 57) || (Nat.leb 65 n && Nat.leb n 90)
  || (Nat.leb 97 n && Nat.leb n 122)
  || existsb (Nat.eqb n) [33; 39; 40; 41; 42; 45; 46; 95; 126].

(** [encodeURIComponent] on code units below 128. *)
Fixpoint percent_encode (s : string) : string :=
  match s with
  | EmptyString => EmptyString
  | String c rest =>
      if unreserved c then String c (percent_encode rest)
      else
        let n := nat_of_ascii c in
        String "%" (String (hex_digit (n / 16))
                      (String (hex_digit (n mod 16)) (percent_encode rest)))
  end.

Definition paragraph (v : Value) : string :=
  match v with
  | JStr s => s
  | _ => EmptyString
  end.

Definition env (s : Script) : Env (option string) := {|
  encodeURIComponent := percent_encode;
  search_get := fun _ w => (search_reply s, w);
  axios_get := fun url w =>
    (match page_text s url with
     | Returned ps => Returned (JArr (map JStr ps))
     | Thrown e => Thrown e
     end, w);
  cheerio_paragraphs := fun data =>
    match data with
    | JArr l => Returned (map paragraph l)
    | _ => Thrown "cheerio.load() expects a string"
    end;
  puppeteer_launch := fun w => (Returned 1, w);
  browser_newPage := fun _ w => (Returned 1, w);
  page_goto := fun _ url w =>
    (match page_text s url with
     | Returned _ => Returned tt
     | Thrown e => Thrown e
     end, url);
  page_evaluate := fun _ w => (page_text s w, w);
  browser_close := fun _ w => (close_reply s, w);
  axios_post := fun _ _ _ w => (post_reply s, w)
|}.

Definition replicate (n : nat) (c : ascii) : string :=
  string_of_list_ascii (repeat c n).

Definition config (library provider : string) (limit : Z) (q : string)
  : Config := {|
  GOOGLE_API_KEY := "key";
  GOOGLE_CX := "cx";
  OPENAI_API_KEY := "sk";
  GEMINI_API_KEY := "gk";
  fetchLibrary := library;
  numResults := limit;
  model := JStr provider;
  query := q
|}.

Definition page_url : option string := Some "https://example.com/".

(** A page of one paragraph of 5000 letters. *)
Definition long_page : Script := {|
  search_reply := Returned (Some [{| item_title := Some "Example";
                                      item_link := page_url |}]);
  page_text := fun _ => Returned [replicate 5000 "a"];
  close_reply := Returned tt;
  post_reply := Thrown "Network Error"
|}.

(** A page of one paragraph of 5000 spaces. *)
Definition blank_page : Script := {|
  search_reply := search_reply long_page;
  page_text := fun _ => Returned [replicate 5000 " "];
  close_reply := Returned tt;
  post_reply := Thrown "Network Error"
|}.

(** The page of [long_page], with a browser whose [close()] rejects. *)
Definition teardown_fails : Script := {|
  search_reply := search_reply long_page;
  page_text := page_text long_page;
  close_reply := Thrown "Protocol error (Browser.close): Target closed";
  post_reply := Thrown "Network Error"
|}.

(** One result, without a link. *)
Definition linkless : Script := {|
  search_reply := Returned (Some [{| item_title := Some "Untitled";
                                      item_link := None |}]);
  page_text := fun _ => Thrown "Invalid URL";
  close_reply := Returned tt;
  post_reply := Thrown "Network Error"
|}.

(** Seven results, numbered. *)
Definition numbered (n : nat) : Item :=
  {| item_title := Some (replicate n "i");
     item_link := Some ("https://example.com/" ++ replicate n "i") |}.

Definition seven_results : Script := {|
  search_reply := Returned (Some (map numbered [1; 2; 3; 4; 5; 6; 7]));
  page_text := page_text long_page;
  close_reply := Returned tt;
  post_reply := Thrown "Network Error"
|}.

(** A search backend that answers with an error. *)
Definition search_down : Script := {|
  search_reply := Thrown "Request failed with status code 403";
  page_text := page_text long_page;
  close_reply := Returned tt;
  post_reply := Thrown "Network Error"
|}.

(** A chat completion whose text is two line breaks. *)
Definition blank_completion : Script := {|
  search_reply := search_reply long_page;
  page_text := page_text long_page;
  close_reply := Returned tt;
  post_reply :=
    Returned
      (JObj [("choices",
              JArr [JObj [("index", JNum 0);
                          ("message",
                           JObj [("role", JStr "assistant");
                                 ("content", JStr (newline ++ newline))]);
                          ("finish_reason", JStr "stop")]])])
|}.

(** A chat completion whose first choice has no message. *)
Definition no_message : Script := {|
  search_reply := search_reply long_page;
  page_text := page_text long_page;
  close_reply := Returned tt;
  post_reply :=
    Returned (JObj [("choices",
                     JArr [JObj [("index", JNum 0);
                                 ("finish_reason", JStr "stop")]])])
|}.

(** A generated answer whose text is two line breaks, in the shape of the
    other provider. *)
Definition blank_candidate : Script := {|
  search_reply := search_reply long_page;
  page_text := page_text long_page;
  close_reply := Returned tt;
  post_reply :=
    Returned
      (JObj [("candidates",
              JArr [JObj [("content",
                          JObj [("role", JStr "model");
                                ("parts",
                                 JArr [JObj [("text",
                                              JStr (newline ++ newline))]])]);
                          ("finishReason", JStr "STOP")]])])
|}.

(** Three results; the second page times out, the others hold 120 letters;
    the chat completion is well formed. *)
Definition second_times_out : Script := {|
  search_reply :=
    Returned (Some [{| item_title := Some "Forecast";
                       item_link := Some "https://a.example/" |};
                    {| item_title := Some "Radar";
                       item_link := Some "https://b.example/" |};
                    {| item_title := Some "Almanac";
                       item_link := Some "https://c.example/" |}]);
  page_text := fun url =>
    match url with
    | Some u => if String.eqb u "https://b.example/"
                then Thrown "timeout of 5000ms exceeded"
                else Returned [replicate 120 "a"]
    | None => Thrown "Invalid URL"
    end;
  close_reply := Returned tt;
  post_reply :=
    Returned
      (JObj [("choices",
              JArr [JObj [("index", JNum 0);
                          ("message",
                           JObj [("role", JStr "assistant");
                                 ("content", JStr "Sunny, with a light breeze.")]);
                          ("finish_reason", JStr "stop")]])])
|}.

(** A navigation that times out. *)
Definition unreachable_page : Script := {|
  search_reply := search_reply long_page;
  page_text := fun _ => Thrown "Navigation timeout of 10000 ms exceeded";
  close_reply := Returned tt;
  post_reply := Thrown "Network Error"
|}.

End Scripted.

(** ** Further observations and worlds *)

(** A console line that reports how a run ended. *)
Definition is_report (ev : Event) : bool :=
  match ev with
  | ConsoleLog _ | ConsoleError _ | ConsoleLogSummary _ => true
  | _ => false
  end.

(** The calls of one run of the puppeteer strategy on [url], with browser
    [b] and page [p]: the run stops at the launch, or goes on to the new
    page, the navigation and the evaluation, and then closes the browser. *)
Definition puppeteer_shapes (b : Browser) (p : Page) (url : option string)
  : list (list Event) :=
  [[PuppeteerLaunch];
   [PuppeteerLaunch; BrowserNewPage b; BrowserClose b];
   [PuppeteerLaunch; BrowserNewPage b; PageGoto p url; BrowserClose b];
   [PuppeteerLaunch; BrowserNewPage b; PageGoto p url; PageEvaluate p;
    BrowserClose b]].

(** The three reports of [main]. *)
Definition final_report (ev : Event) : Prop :=
  ev = ConsoleLog "❌ No results found."
  \/ ev = ConsoleError "❌ Invalid fetch library specified."
  \/ exists summary, ev = ConsoleLogSummary (JStr summary).

(** The calls the puppeteer strategy is to make on [url] from world [w],
    read off the world's answers: each call of the chain (launch, new page,
    navigation, evaluation) is made when the one before it succeeded, and a
    browser that was launched is closed last. *)
Definition puppeteer_calls {W} (env : Env W) (url : option string) (w : W)
  : list Event :=
  match puppeteer_launch env w with
  | (Thrown _, _) => [PuppeteerLaunch]
  | (Returned b, w1) =>
      ([PuppeteerLaunch; BrowserNewPage b]
       ++ match browser_newPage env b w1 with
          | (Thrown _, _) => []
          | (Returned p, w2) =>
              PageGoto p url
              :: match page_goto env p url w2 with
                 | (Thrown _, _) => []
                 | (Returned _, _) => [PageEvaluate p]
                 end
          end
       ++ [BrowserClose b])%list
  end.

(** Every fetch from every world fails. *)
Definition offline {W} (env : Env W) (s : Strategy) : Prop :=
  forall url w, unfetched env s url w.

(** A browser can always be launched. *)
Definition launch_ok {W} (env : Env W) : Prop :=
  forall w, exists b w', puppeteer_launch env w = (Returned b, w').

(** Closing a browser always throws [e]. *)
Definition teardown_throws {W} (env : Env W) (e : string) : Prop :=
  forall b w, fst (browser_close env b w) = Thrown e.

(** What a provider returns for a generated text [s]: the text trimmed, and
    for ProviderB the sentinel when nothing is left of it. *)
Definition summary_of (p : Provider) (s : string) : string :=
  match p with
  | ProviderA => trim s
  | ProviderB =>
      if String.eqb (trim s) EmptyString then error_generating_summary
      else trim s
  end.

Module Cases.

Import Scripted.

(** [cfg], with another value of the model selector. *)
Definition with_model (v : Value) (cfg : Config) : Config := {|
  GOOGLE_API_KEY := GOOGLE_API_KEY cfg;
  GOOGLE_CX := GOOGLE_CX cfg;
  OPENAI_API_KEY := OPENAI_API_KEY cfg;
  GEMINI_API_KEY := GEMINI_API_KEY cfg;
  fetchLibrary := fetchLibrary cfg;
  numResults := numResults cfg;
  model := v;
  query := query cfg
|}.

(** [env], with a [puppeteer.launch()] that rejects. *)
Definition without_browser {W} (env : Env W) : Env W := {|
  encodeURIComponent := encodeURIComponent env;
  search_get := search_get env;
  axios_get := axios_get env;
  cheerio_paragraphs := cheerio_paragraphs env;
  puppeteer_launch := fun w => (Thrown "Failed to launch the browser process", w);
  browser_newPage := browser_newPage env;
  page_goto := page_goto env;
  page_evaluate := page_evaluate env;
  browser_close := browser_close env;
  axios_post := axios_post env
|}.

(** Three results, none of which can be reached; the chat completion is
    well formed. *)
Definition all_unreachable : Script := {|
  search_reply := search_reply second_times_out;
  page_text := fun _ => Thrown "getaddrinfo ENOTFOUND";
  close_reply := Returned tt;
  post_reply := post_reply second_times_out
|}.

(** A page of one paragraph of 150 letters. *)
Definition short_page : Script := {|
  search_reply := search_reply long_page;
  page_text := fun _ => Returned [replicate 150 "a"];
  close_reply := Returned tt;
  post_reply := post_reply second_times_out
|}.

(** Seven results over pages of 5000 letters; the chat completion is well
    formed. *)
Definition seven_pages : Script := {|
  search_reply := search_reply seven_results;
  page_text := page_text long_page;
  close_reply := Returned tt;
  post_reply := post_reply second_times_out
|}.

(** A well-formed answer of the other provider. *)
Definition candidate_data : Value :=
  JObj [("candidates",
         JArr [JObj [("content",
                     JObj [("role", JStr "model");
                           ("parts",
                            JArr [JObj [("text",
                                         JStr (" Mostly dry. "
                                               ++ newline))]])]);
                     ("finishReason", JStr "STOP")]])].

Definition candidate_answer : Script := {|
  search_reply := search_reply long_page;
  page_text := page_text long_page;
  close_reply := Returned tt;
  post_reply := Returned candidate_data
|}.

End Cases.

(** ** Strings: lengths of [trim] and [slice] *)

Lemma length_trimStart s : String.length (trimStart s) <= String.length s.
Proof.
  induction s as [|c s IH]; simpl; [lia|].
  destruct (is_white_space c); simpl; lia.
Qed.

Lemma length_trimEnd s : String.length (trimEnd s) <= String.length s.
Proof.
  induction s as [|c s IH]; simpl; [lia|].
  destruct (trimEnd s) as [|d kept]; simpl in *.
  - destruct (is_white_space c); simpl; lia.
  - lia.
Qed.

Lemma length_trim s : String.length (trim s) <= String.length s.
Proof.
  unfold trim.
  pose proof (length_trimEnd (trimStart s)).
  pose proof (length_trimStart s). lia.
Qed.

Lemma length_substring_0 m s :
  String.length (substring 0 m s) = Nat.min m (String.length s).
Proof.
  revert m; induction s as [|c s IH]; intros [|m]; simpl; auto.
Qed.

Lemma substring_0_min m s :
  substring 0 (Nat.min m (String.length s)) s = substring 0 m s.
Proof.
  revert m; induction s as [|c s IH]; intros [|m]; simpl; auto.
  f_equal. apply IH.
Qed.

Lemma substring_0_prefix m s : prefix (substring 0 m s) s = true.
Proof.
  revert m; induction s as [|c s IH]; intros [|m]; simpl; auto.
  destruct (ascii_dec c c) as [_|N]; [apply IH | contradiction].
Qed.

(** [s.slice(0, n)] is the first [n] code units of [s]. *)
Lemma str_slice_0 s n :
  (0 <= n)%Z -> str_slice s 0 n = substring 0 (Z.to_nat n) s.
Proof.
  intros Hn. unfold str_slice, clamp.
  destruct (Z.ltb_spec n 0) as [H|_]; [lia|].
  cbn [Z.ltb Z.compare Z.to_nat Nat.min].
  rewrite Nat.sub_0_r. apply substring_0_min.
Qed.

Lemma arr_slice_0 {A} (l : list A) n :
  (0 <= n)%Z -> arr_slice l 0 n = firstn (Z.to_nat n) l.
Proof.
  intros Hn. unfold arr_slice, clamp.
  destruct (Z.ltb_spec n 0) as [H|_]; [lia|].
  cbn [Z.ltb Z.compare Z.to_nat Nat.min].
  rewrite Nat.sub_0_r. cbn [skipn].
  destruct (Nat.le_ge_cases (Z.to_nat n) (List.length l)) as [H|H].
  - now rewrite Nat.min_l.
  - rewrite Nat.min_r by assumption.
    rewrite !firstn_all2; auto.
Qed.

Lemma arr_slice_nil {A} from to : arr_slice (@nil A) from to = [].
Proof. unfold arr_slice. now rewrite skipn_nil, firstn_nil. Qed.

(** ** The excerpt envelope *)

Lemma excerpt_envelope content : Envelope content (excerpt content).
Proof.
  unfold excerpt.
  destruct (Nat.ltb_spec 100 (String.length (trim content))) as [H|H].
  - rewrite str_slice_0 by lia. now constructor.
  - now constructor.
Qed.

Lemma excerpt_long content :
  100 < String.length (trim content) ->
  excerpt content = substring 0 2000 content.
Proof.
  intros H. destruct (excerpt_envelope content) as [_|H']; [reflexivity|lia].
Qed.

Lemma excerpt_short content :
  String.length (trim content) <= 100 ->
  excerpt content = no_meaningful_content.
Proof.
  intros H. destruct (excerpt_envelope content) as [H'|_]; [lia|reflexivity].
Qed.

Lemma excerpt_bounds content :
  1 <= String.length (excerpt content) <= 2000.
Proof.
  destruct (excerpt_envelope content) as [H|H].
  - rewrite length_substring_0. pose proof (length_trim content). lia.
  - simpl. lia.
Qed.

(** ** The two fetch strategies, call by call *)

Section FetchRuns.

Context {W : Type} (env : Env W).

Lemma cheerio_run url w :
  fetchPageContentWithCheerio env url w =
  match axios_get env url w with
  | (Returned data, w1) =>
      match cheerio_paragraphs env data with
      | Returned ps => (Returned (excerpt (join " " ps)), w1, [AxiosGet url])
      | Thrown _ => (Returned error_fetching_content, w1, [AxiosGet url])
      end
  | (Thrown _, w1) => (Returned error_fetching_content, w1, [AxiosGet url])
  end.
Proof.
  unfold fetchPageContentWithCheerio, try_catch, bind, await, eval, ret.
  destruct (axios_get env url w) as [[data|e] w1]; [|reflexivity].
  destruct (cheerio_paragraphs env data) as [ps|e]; reflexivity.
Qed.

Lemma puppeteer_run url w :
  fetchPageContentWithPuppeteer env url w =
  match puppeteer_launch env w with
  | (Thrown _, w1) => (Returned error_fetching_content, w1, [PuppeteerLaunch])
  | (Returned b, w1) =>
      match browser_newPage env b w1 with
      | (Thrown _, w2) =>
          close_after env b w2 (Returned error_fetching_content)
            [PuppeteerLaunch; BrowserNewPage b]
      | (Returned p, w2) =>
          match page_goto env p url w2 with
          | (Thrown _, w3) =>
              close_after env b w3 (Returned error_fetching_content)
                [PuppeteerLaunch; BrowserNewPage b; PageGoto p url]
          | (Returned _, w3) =>
              match page_evaluate env p w3 with
              | (Thrown _, w4) =>
                  close_after env b w4 (Returned error_fetching_content)
                    [PuppeteerLaunch; BrowserNewPage b; PageGoto p url;
                     PageEvaluate p]
              | (Returned ps, w4) =>
                  close_after env b w4 (Returned (excerpt (join " " ps)))
                    [PuppeteerLaunch; BrowserNewPage b; PageGoto p url;
                     PageEvaluate p]
              end
          end
      end
  end.
Proof.
  unfold fetchPageContentWithPuppeteer, with_local, try_finally, try_catch,
    bind, lift, await, set_local, get_local, ret, close_after; simpl.
  destruct (puppeteer_launch env w) as [[b|e] w1]; simpl; [|reflexivity].
  destruct (browser_newPage env b w1) as [[p|e] w2]; simpl.
  - destruct (page_goto env p url w2) as [[u|e] w3]; simpl.
    + destruct (page_evaluate env p w3) as [[ps|e] w4]; simpl;
        destruct (browser_close env b w4) as [[u'|e'] w5]; reflexivity.
    + destruct (browser_close env b w3) as [[u'|e'] w5]; reflexivity.
  - destruct (browser_close env b w2) as [[u'|e'] w5]; reflexivity.
Qed.

End FetchRuns.

(** ** Post-processing of a fetched page *)

Lemma fetched_excerpt {W} (env : Env W) s url w ps w' :
  fetched env s url w ps w' ->
  outcome (fetch env s url w) = Returned (excerpt (join " " ps)).
Proof.
  destruct s; simpl.
  - intros (data & Hget & Hp). rewrite cheerio_run, Hget, Hp. reflexivity.
  - intros (b & w1 & p & w2 & w3 & w4 & H1 & H2 & H3 & H4 & H5).
    rewrite puppeteer_run, H1, H2, H3, H4. unfold close_after.
    rewrite H5. reflexivity.
Qed.

(** C3, amended.  When a page is fetched without an error, both strategies
    return the first 2000 characters of the joined paragraph text if what is
    left of the text after trimming its leading and trailing white space is
    longer than 100 characters, and "No meaningful content found."
    otherwise.  In particular 5000 characters with more than 100 left after
    trimming are cut to exactly their first 2000 characters, and 50
    characters become the sentinel. *)
Theorem excerpt_by_trimmed_length {W} (env : Env W) s url w ps w' :
  fetched env s url w ps w' ->
  let content := join " " ps in
  outcome (fetch env s url w)
  = Returned (if Nat.ltb 100 (String.length (trim content))
              then substring 0 2000 content
              else no_meaningful_content)
  /\ (String.length content = 5000 ->
      100 < String.length (trim content) ->
      outcome (fetch env s url w) = Returned (substring 0 2000 content)
      /\ String.length (substring 0 2000 content) = 2000
      /\ prefix (substring 0 2000 content) content = true)
  /\ (String.length content = 50 ->
      outcome (fetch env s url w) = Returned no_meaningful_content).
Proof.
  intros H content. rewrite (fetched_excerpt _ _ _ _ _ _ H).
  fold content. repeat split.
  - destruct (Nat.ltb_spec 100 (String.length (trim content))) as [L|L].
    + now rewrite excerpt_long.
    + now rewrite excerpt_short.
  - now rewrite excerpt_long.
  - rewrite length_substring_0. lia.
  - apply substring_0_prefix.
  - intros L. rewrite excerpt_short; [reflexivity|].
    pose proof (length_trim content). lia.
Qed.

(** The claim as worded, with the threshold on the untrimmed length, fails on
    a page whose single paragraph is 5000 spaces: the text is 5000 characters
    long, and the excerpt is the sentinel, not its first 2000 characters. *)
Lemma excerpt_by_length_counterexample :
  let env := Scripted.env Scripted.blank_page in
  let ps := [Scripted.replicate 5000 " "] in
  let content := join " " ps in
  fetched env LightweightFetch Scripted.page_url None ps None
  /\ String.length content = 5000
  /\ excerpt_as_specified content = substring 0 2000 content
  /\ outcome (fetch env LightweightFetch Scripted.page_url None)
     = Returned no_meaningful_content
  /\ outcome (fetch env LightweightFetch Scripted.page_url None)
     <> Returned (excerpt_as_specified content).
Proof.
  cbv zeta. split; [|split; [|split; [|split]]].
  - simpl. eexists. split; reflexivity.
  - vm_compute. reflexivity.
  - vm_compute. reflexivity.
  - vm_compute. reflexivity.
  - intros H. vm_compute in H. discriminate H.
Qed.

Lemma excerpt_by_trimmed_length_witness :
  let env := Scripted.env Scripted.long_page in
  let ps := [Scripted.replicate 5000 "a"] in
  fetched env RenderedFetch Scripted.page_url None ps Scripted.page_url
  /\ outcome (fetch env RenderedFetch Scripted.page_url None)
     = Returned (Scripted.replicate 2000 "a").
Proof.
  cbv zeta.
  assert (F : fetched (Scripted.env Scripted.long_page) RenderedFetch
                Scripted.page_url None [Scripted.replicate 5000 "a"]
                Scripted.page_url).
  { simpl. do 6 eexists. repeat split; reflexivity. }
  split; [exact F|].
  destruct (excerpt_by_trimmed_length _ _ _ _ _ _ F) as (_ & H & _).
  destruct H as (H & _); [vm_compute; reflexivity | vm_compute; lia |].
  rewrite H. vm_compute. reflexivity.
Defined.

(** ** Failure containment in the fetch strategies *)

Lemma Excerpt_excerpt content : Excerpt (excerpt content).
Proof. eapply FromPage, excerpt_envelope. Qed.

Lemma Excerpt_bounds s : Excerpt s -> 1 <= String.length s <= 2000.
Proof.
  intros E. destruct E as [content ? [H|H]|].
  - rewrite length_substring_0. pose proof (length_trim content). lia.
  - simpl. lia.
  - simpl. lia.
Qed.

Create HintDb excerpts.
#[local] Hint Resolve Excerpt_excerpt FetchError : excerpts.

(** The cheerio strategy asks for the page once and always returns an
    excerpt. *)
Lemma cheerio_total {W} (env : Env W) url w :
  exists s w1,
    fetchPageContentWithCheerio env url w = (Returned s, w1, [AxiosGet url])
    /\ Excerpt s.
Proof.
  rewrite cheerio_run.
  destruct (axios_get env url w) as [[data|e] w1].
  - destruct (cheerio_paragraphs env data) as [ps|e];
      eauto with excerpts.
  - eauto with excerpts.
Qed.

(** So does the puppeteer strategy, as long as closing the browser does not
    fail. *)
Lemma puppeteer_total {W} (env : Env W) url w :
  teardown_ok env ->
  exists s w1 t,
    fetchPageContentWithPuppeteer env url w = (Returned s, w1, t)
    /\ Excerpt s
    /\ hd_error t = Some PuppeteerLaunch.
Proof.
  intros Hclose. rewrite puppeteer_run. unfold close_after.
  destruct (puppeteer_launch env w) as [[b|e] w1];
    [|eauto 6 with excerpts].
  destruct (browser_newPage env b w1) as [[p|e] w2].
  - destruct (page_goto env p url w2) as [[u|e] w3].
    + destruct (page_evaluate env p w3) as [[ps|e] w4];
        destruct (Hclose b w4) as [w5 ->]; eauto 6 with excerpts.
    + destruct (Hclose b w3) as [w5 ->]; eauto 6 with excerpts.
  - destruct (Hclose b w2) as [w5 ->]; eauto 6 with excerpts.
Qed.

(** What [browser.close()] throws in the [finally] block is what the
    puppeteer strategy throws. *)
Lemma teardown_error_escapes {W} (env : Env W) url w b w1 e :
  puppeteer_launch env w = (Returned b, w1) ->
  (forall w', fst (browser_close env b w') = Thrown e) ->
  outcome (fetchPageContentWithPuppeteer env url w) = Thrown e.
Proof.
  intros Hl Hc. rewrite puppeteer_run, Hl. unfold close_after.
  assert (C : forall w' r pre,
             outcome (match browser_close env b w' with
                      | (Returned _, w2) =>
                          (r, w2, (pre ++ [BrowserClose b])%list)
                      | (Thrown e0, w2) =>
                          (Thrown e0, w2, (pre ++ [BrowserClose b])%list)
                      end) = Thrown e :> Result string).
  { intros w' r pre. specialize (Hc w').
    destruct (browser_close env b w') as [[u|e0] w2];
      unfold outcome; simpl in *; congruence. }
  destruct (browser_newPage env b w1) as [[p|e1] w2]; [|apply C].
  destruct (page_goto env p url w2) as [[u|e2] w3]; [|apply C].
  destruct (page_evaluate env p w3) as [[ps|e3] w4]; apply C.
Qed.

(** C2.  The puppeteer strategy on a page of 5000 letters, with a browser
    whose [close()] rejects: the excerpt was extracted, and yet the function
    returns no string at all, it throws what [close()] threw. *)
Theorem puppeteer_throws_when_close_rejects :
  fetchPageContentWithPuppeteer (Scripted.env Scripted.teardown_fails)
    Scripted.page_url None
  = (Thrown "Protocol error (Browser.close): Target closed",
     Scripted.page_url,
     [PuppeteerLaunch; BrowserNewPage 1; PageGoto 1 Scripted.page_url;
      PageEvaluate 1; BrowserClose 1]).
Proof. vm_compute. reflexivity. Qed.

(** ** The browser of the puppeteer strategy *)

(** One exit path: the close succeeds or fails, and nothing before it was a
    close. *)
Ltac close_case env b w :=
  destruct (browser_close env b w) as [[[]|?] ?];
  eexists; unfold calls, world_after, outcome; simpl;
  (split; [reflexivity|]);
  (split; [repeat (apply Forall_cons; [intros ?; discriminate|]);
           apply Forall_nil|]);
  (split; [reflexivity|]);
  auto with excerpts.

(** C8.  Once [puppeteer.launch()] has given a browser, closing that browser
    is the last call the strategy makes and the only close, whichever way
    the run goes (an excerpt, the too-short sentinel, or an error thrown by
    the new page, the navigation or the evaluation); what the function
    returns, it returns after the close has succeeded. *)
Theorem browser_closed_on_every_path {W} (env : Env W) url w b w1 :
  puppeteer_launch env w = (Returned b, w1) ->
  let run := fetchPageContentWithPuppeteer env url w in
  exists pre w2 closed,
    calls run = (pre ++ [BrowserClose b])%list
    /\ Forall (fun ev => forall b', ev <> BrowserClose b') pre
    /\ browser_close env b w2 = (closed, world_after run)
    /\ match outcome run with
       | Returned s => closed = Returned tt /\ Excerpt s
       | Thrown e => closed = Thrown e
       end.
Proof.
  intros Hl run. subst run. rewrite !puppeteer_run, Hl. unfold close_after.
  destruct (browser_newPage env b w1) as [[p|e1] w2].
  - destruct (page_goto env p url w2) as [[u|e2] w3].
    + destruct (page_evaluate env p w3) as [[ps|e3] w4];
        exists [PuppeteerLaunch; BrowserNewPage b; PageGoto p url;
                PageEvaluate p], w4; close_case env b w4.
    + exists [PuppeteerLaunch; BrowserNewPage b; PageGoto p url], w3.
      close_case env b w3.
  - exists [PuppeteerLaunch; BrowserNewPage b], w2. close_case env b w2.
Qed.

Lemma browser_closed_on_every_path_witness :
  let env := Scripted.env Scripted.unreachable_page in
  let run := fetchPageContentWithPuppeteer env Scripted.page_url None in
  puppeteer_launch env None = (Returned 1, None)
  /\ exists pre w2 closed,
       calls run = (pre ++ [BrowserClose 1])%list
       /\ Forall (fun ev => forall b', ev <> BrowserClose b') pre
       /\ browser_close env 1 w2 = (closed, world_after run)
       /\ match outcome run with
          | Returned s => closed = Returned tt /\ Excerpt s
          | Thrown e => closed = Thrown e
          end.
Proof.
  cbv zeta. split; [reflexivity|].
  apply (browser_closed_on_every_path
           (Scripted.env Scripted.unreachable_page) Scripted.page_url None
           1 None).
  reflexivity.
Defined.

(** The navigation times out: the excerpt is the fetch-error sentinel, and
    the browser is closed after the failed [goto]. *)
Example navigation_timeout_closes_browser :
  fetchPageContentWithPuppeteer (Scripted.env Scripted.unreachable_page)
    Scripted.page_url None
  = (Returned "Error fetching content.", Scripted.page_url,
     [PuppeteerLaunch; BrowserNewPage 1; PageGoto 1 Scripted.page_url;
      BrowserClose 1]).
Proof. reflexivity. Qed.

(** ** Search *)

Section Search.

Context {W : Type} (env : Env W) (cfg : Config).

Lemma googleSearch_run q w :
  googleSearch env cfg q w =
  match search_get env (search_url env cfg q) w with
  | (Returned found, w1) =>
      (Returned (map locator_of
                   (arr_slice (match found with Some l => l | None => [] end)
                      0 (numResults cfg))),
       w1, [AxiosGet (Some (search_url env cfg q))])
  | (Thrown _, w1) =>
      (Returned [], w1, [AxiosGet (Some (search_url env cfg q))])
  end.
Proof.
  unfold googleSearch, try_catch, bind, await, ret.
  destruct (search_get env (search_url env cfg q) w) as [[found|e] w1];
    reflexivity.
Qed.

(** The search stage never throws, and asks the backend once. *)
Lemma googleSearch_total q w :
  exists locs w1,
    googleSearch env cfg q w
    = (Returned locs, w1, [AxiosGet (Some (search_url env cfg q))]).
Proof.
  rewrite googleSearch_run.
  destruct (search_get env (search_url env cfg q) w) as [[found|e] w1];
    eauto.
Qed.

End Search.

(** C4, amended.  For every query and every limit L >= 1, on a successful
    backend response search returns the first L items of the response (all
    of them when there are fewer), in the backend's order, each mapped to
    {title, link}; an item that lacks a link is kept, with an undefined
    link. *)
Theorem search_keeps_first_items {W} (env : Env W) cfg q w items w1 :
  (1 <= numResults cfg)%Z ->
  search_get env (search_url env cfg q) w = (Returned (Some items), w1) ->
  let kept := firstn (Z.to_nat (numResults cfg)) items in
  googleSearch env cfg q w
  = (Returned (map locator_of kept), w1,
     [AxiosGet (Some (search_url env cfg q))])
  /\ (Z.of_nat (List.length (map locator_of kept)) <= numResults cfg)%Z
  /\ List.length (map locator_of kept)
     = Nat.min (Z.to_nat (numResults cfg)) (List.length items)
  /\ map title (map locator_of kept) = map item_title kept
  /\ map link (map locator_of kept) = map item_link kept.
Proof.
  intros HL Hget kept. rewrite googleSearch_run, Hget.
  rewrite arr_slice_0 by lia. fold kept.
  rewrite length_map. unfold kept. rewrite length_firstn.
  repeat split; try lia.
  - rewrite map_map. reflexivity.
  - rewrite map_map. reflexivity.
Qed.

Lemma search_keeps_first_items_witness :
  let env := Scripted.env Scripted.seven_results in
  let cfg := Scripted.config "cheerio" "openai" 5 "test" in
  (1 <= numResults cfg)%Z
  /\ outcome (googleSearch env cfg "test" None)
     = Returned (map (fun n => locator_of (Scripted.numbered n))
                   [1; 2; 3; 4; 5]).
Proof.
  cbv zeta. split; [vm_compute; discriminate|].
  destruct (search_keeps_first_items
              (Scripted.env Scripted.seven_results)
              (Scripted.config "cheerio" "openai" 5 "test") "test" None
              (map Scripted.numbered [1; 2; 3; 4; 5; 6; 7]) None)
    as (H & _).
  - vm_compute. discriminate.
  - reflexivity.
  - rewrite H. reflexivity.
Defined.

(** The claim as worded fails on a response whose only item has no link:
    with limit 1 the item is not dropped, search returns it. *)
Lemma search_drops_linkless_counterexample :
  let env := Scripted.env Scripted.linkless in
  let cfg := Scripted.config "cheerio" "openai" 1 "test" in
  search_get env (search_url env cfg "test") None
  = (Returned (Some [{| item_title := Some "Untitled";
                        item_link := None |}]), None)
  /\ outcome (googleSearch env cfg "test" None)
     = Returned [{| title := Some "Untitled"; link := None |}].
Proof. split; reflexivity. Qed.

(** ** No results *)

Lemma main_no_results {W} (env : Env W) cfg w w1 t :
  googleSearch env cfg (query cfg) w = (Returned [], w1, t) ->
  main env cfg w
  = (Returned tt, w1, (t ++ [ConsoleLog "❌ No results found."])%list).
Proof.
  intros H. unfold main, bind. rewrite H. reflexivity.
Qed.

(** C5.  When the search backend answers with an error or with no item,
    search returns the empty list (the error is not thrown further), and
    the run prints "No results found." and ends: after the one request to
    the search backend it makes no call to a fetch strategy and none to a
    synthesis provider. *)
Theorem no_results_short_circuit {W} (env : Env W) cfg w reply w1 :
  search_get env (search_url env cfg (query cfg)) w = (reply, w1) ->
  no_items reply ->
  googleSearch env cfg (query cfg) w
  = (Returned [], w1, [AxiosGet (Some (search_url env cfg (query cfg)))])
  /\ main env cfg w
     = (Returned tt, w1,
        [AxiosGet (Some (search_url env cfg (query cfg)));
         ConsoleLog "❌ No results found."]).
Proof.
  intros Hget Hno.
  assert (S : googleSearch env cfg (query cfg) w
              = (Returned [], w1,
                 [AxiosGet (Some (search_url env cfg (query cfg)))])).
  { rewrite googleSearch_run, Hget.
    destruct reply as [[items|]|e]; simpl in Hno; subst;
      rewrite ?arr_slice_nil; reflexivity. }
  split; [exact S|].
  rewrite (main_no_results _ _ _ _ _ S). reflexivity.
Qed.

Lemma no_results_short_circuit_witness :
  let env := Scripted.env Scripted.search_down in
  let cfg := Scripted.config "puppeteer" "gemini" 5 "test" in
  no_items (Scripted.search_reply Scripted.search_down)
  /\ main env cfg None
     = (Returned tt, None,
        [AxiosGet
           (Some "https://www.googleapis.com/customsearch/v1?q=test&key=key&cx=cx");
         ConsoleLog "❌ No results found."]).
Proof.
  cbv zeta. split; [exact I|].
  apply (no_results_short_circuit (Scripted.env Scripted.search_down)
           (Scripted.config "puppeteer" "gemini" 5 "test") None
           (Thrown "Request failed with status code 403") None).
  - reflexivity.
  - exact I.
Defined.

(** ** Synthesis: reading the answer *)

Lemma get_prop_step v k x :
  get_prop v k = Returned x -> x = JUndefined \/ step (Field k) v = Some x.
Proof.
  destruct v; simpl; try discriminate; intros H; injection H as <-; auto.
  destruct (own (key_name k) props); auto.
Qed.

Lemma get_first_step v x :
  get_first v = Returned x -> x = JUndefined \/ step First v = Some x.
Proof.
  destruct v as [| | | |s|l|props]; simpl; try discriminate;
    intros H; injection H as <-; auto.
  - destruct s; auto.
  - destruct l; auto.
  - destruct (own "0" props); auto.
Qed.

(** One read of a chain: it threw, it gave [undefined], or it is a step into
    the body. *)
Ltac read_step H x E :=
  match type of H with
  | and_then ?r _ = Returned _ =>
      destruct r as [x|] eqn:E; cbn [and_then] in H; [|discriminate H];
      first [apply get_prop_step in E | apply get_first_step in E];
      destruct E as [->|E]
  end.

Lemma openai_text_returned data v :
  openai_text data = Returned v ->
  exists s, generated_text ProviderA data = Some s /\ v = JStr (trim s).
Proof.
  unfold openai_text, generated_text. cbn [text_path]. intros H.
  read_step H choices E1; [discriminate H|].
  read_step H choice E2; [discriminate H|].
  read_step H message E3; [discriminate H|].
  read_step H content E4; [discriminate H|].
  destruct content as [| | | |s| |]; try discriminate H. injection H as <-.
  exists s. cbn [resolve]. rewrite E1, E2, E3, E4. auto.
Qed.

Lemma gemini_text_returned data v :
  gemini_text data = Returned v ->
  v = JStr error_generating_summary
  \/ exists s, generated_text ProviderB data = Some s
               /\ v = JStr (trim s) /\ trim s <> EmptyString.
Proof.
  unfold gemini_text, generated_text. cbn [text_path]. intros H.
  destruct (and_then (get_prop data Kcandidates) _) as [found|e] eqn:F;
    cbn [and_then] in H; [|discriminate H].
  injection H as <-.
  read_step F candidates E1; [discriminate F|].
  read_step F candidate E2; [injection F as <-; auto|].
  unfold optional in F at 1.
  destruct (nullish candidate); [injection F as <-; auto|].
  read_step F content E3; [injection F as <-; auto|].
  unfold optional in F at 1.
  destruct (nullish content); [injection F as <-; auto|].
  read_step F parts E4; [discriminate F|].
  read_step F part E5; [injection F as <-; auto|].
  unfold optional in F.
  destruct (nullish part); [injection F as <-; auto|].
  read_step F text E6; [discriminate F|].
  destruct text as [| | | |s| |]; try discriminate F. injection F as <-.
  unfold or_else, truthy.
  destruct (String.eqb_spec (trim s) EmptyString) as [Z|NZ]; cbn [negb];
    [auto|].
  right. exists s. cbn [resolve]. rewrite E1, E2, E3, E4, E5, E6. auto.
Qed.

Section Synthesis.

Context {W : Type} (env : Env W) (cfg : Config).

Lemma synthesize_run p q cs w :
  synthesize env cfg p q cs w =
  match answer env cfg p q cs w with
  | (Returned data, w1) =>
      (Returned (match read_text p data with
                 | Returned v => v
                 | Thrown _ => JStr error_generating_summary
                 end), w1, [request cfg p q cs])
  | (Thrown _, w1) =>
      (Returned (JStr error_generating_summary), w1, [request cfg p q cs])
  end.
Proof.
  destruct p; unfold synthesize, answer, request, read_text,
    summarizeWithOpenAI, summarizeWithGemini, try_catch, bind, await, eval,
    ret.
  - destruct (axios_post env openaiEndpoint _ _ w) as [[data|e] w1];
      [|reflexivity].
    destruct (openai_text data); reflexivity.
  - destruct (axios_post env (gemini_url cfg) _ _ w) as [[data|e] w1];
      [|reflexivity].
    destruct (gemini_text data); reflexivity.
Qed.

(** A provider sends one request and returns a string, whatever the
    answer. *)
Lemma synthesize_total p q cs w :
  exists s w1,
    synthesize env cfg p q cs w
    = (Returned (JStr s), w1, [request cfg p q cs]).
Proof.
  rewrite synthesize_run.
  destruct (answer env cfg p q cs w) as [[data|e] w1]; [|eauto].
  destruct (read_text p data) as [v|e] eqn:R; [|eauto].
  destruct p; simpl in R.
  - apply openai_text_returned in R as (s & _ & ->). eauto.
  - apply gemini_text_returned in R as [->|(s & _ & -> & _)]; eauto.
Qed.

(** ProviderB never returns the empty string. *)
Lemma gemini_nonempty q cs w :
  exists s, outcome (summarizeWithGemini env cfg q cs w) = Returned (JStr s)
            /\ s <> EmptyString.
Proof.
  change (summarizeWithGemini env cfg) with (synthesize env cfg ProviderB).
  rewrite synthesize_run.
  destruct (answer env cfg ProviderB q cs w) as [[data|e] w1];
    unfold outcome; simpl.
  - destruct (gemini_text data) as [v|e] eqn:R.
    + apply gemini_text_returned in R as [->|(s & _ & -> & N)]; eauto.
      eexists; split; [reflexivity|discriminate].
    + eexists; split; [reflexivity|discriminate].
  - eexists; split; [reflexivity|discriminate].
Qed.

End Synthesis.

(** A field missing anywhere on the way leaves no generated text. *)
Lemma missing_step_unusable p before s after data v :
  text_path p = (before ++ s :: after)%list ->
  resolve before data = Some v ->
  step s v = None ->
  unusable p (Returned data).
Proof.
  intros Hp Hb Hs. unfold unusable, generated_text. rewrite Hp.
  assert (R : resolve (before ++ s :: after) data = None).
  { clear Hp. revert data Hb.
    induction before as [|s0 before IH]; simpl; intros data Hb.
    - injection Hb as ->. now rewrite Hs.
    - destruct (step s0 data); [auto|discriminate]. }
  now rewrite R.
Qed.

(** An empty body has no generated text. *)
Lemma empty_body_unusable p data :
  In data [JUndefined; JNull; JStr EmptyString; JObj []] ->
  unusable p (Returned data).
Proof.
  intros [<-|[<-|[<-|[<-|[]]]]]; destruct p; reflexivity.
Qed.

(** C7.  For both providers: when the request fails, or the answer's body
    lacks the generated text (no choices or candidates, no message, content,
    parts or text on the way to it, an empty body), the provider returns
    "Error generating summary."; nothing is thrown to the caller, and the
    one request is not repeated. *)
Theorem synthesis_failure_sentinel {W} (env : Env W) cfg p q cs w reply w1 :
  answer env cfg p q cs w = (reply, w1) ->
  unusable p reply ->
  synthesize env cfg p q cs w
  = (Returned (JStr error_generating_summary), w1, [request cfg p q cs]).
Proof.
  intros Ha Hu. rewrite synthesize_run, Ha.
  destruct reply as [data|e]; [|reflexivity].
  simpl in Hu. destruct (read_text p data) as [v|e] eqn:R; [|reflexivity].
  destruct p; simpl in R.
  - apply openai_text_returned in R as (s & G & _). congruence.
  - apply gemini_text_returned in R as [->|(s & G & _)];
      [reflexivity|congruence].
Qed.

Lemma synthesis_failure_sentinel_witness :
  let env := Scripted.env Scripted.no_message in
  let cfg := Scripted.config "cheerio" "openai" 5 "x" in
  unusable ProviderA (Scripted.post_reply Scripted.no_message)
  /\ summarizeWithOpenAI env cfg "x" ["a"] None
     = (Returned (JStr "Error generating summary."), None,
        [request cfg ProviderA "x" ["a"]]).
Proof.
  cbv zeta. split; [reflexivity|].
  apply (synthesis_failure_sentinel (Scripted.env Scripted.no_message)
           (Scripted.config "cheerio" "openai" 5 "x") ProviderA "x" ["a"]
           None (Scripted.post_reply Scripted.no_message) None);
    reflexivity.
Defined.

(** C9.  The chat-completion provider, answered with a completion whose text
    is two line breaks, returns the empty string: its [trim()] has no
    fallback.  The other provider, answered with such a text, returns
    "Error generating summary.", through its
    [|| 'Error generating summary.']. *)
Theorem openai_returns_empty_summary :
  let cfg := Scripted.config "cheerio" "openai" 5 "x" in
  summarizeWithOpenAI (Scripted.env Scripted.blank_completion) cfg "x" ["a"]
    None
  = (Returned (JStr EmptyString), None, [request cfg ProviderA "x" ["a"]])
  /\ summarizeWithGemini (Scripted.env Scripted.blank_candidate) cfg "x"
       ["a"] None
     = (Returned (JStr "Error generating summary."), None,
        [request cfg ProviderB "x" ["a"]]).
Proof. split; reflexivity. Qed.

(** ** Synthesis: the request *)

(** Both prompts carry the query, quoted, and the excerpts joined by a blank
    line. *)
Lemma prompt_embeds_query_and_excerpts cfg p q cs :
  exists url body headers lead between,
    request cfg p q cs = AxiosPost url body headers
    /\ In (lead ++ quote ++ q ++ quote ++ between
           ++ join (newline ++ newline) cs)
          (strings_of body)
    /\ prefix "Generate new content" lead = true.
Proof.
  destruct p.
  - exists openaiEndpoint, (openai_body q cs), (openai_headers cfg),
      "Generate new content that answers the query: ",
      (newline ++ newline
       ++ "Here is the information gathered from various sources:"
       ++ newline ++ newline).
    split; [reflexivity|]. split; [|reflexivity].
    do 4 right. left. reflexivity.
  - exists (gemini_url cfg), (gemini_body q cs), gemini_headers,
      "Generate new content to answer the query: ",
      (" based on the following information:" ++ newline ++ newline).
    split; [reflexivity|]. split; [|reflexivity].
    right. left. reflexivity.
Qed.

(** C6.  A run over one page, with either provider: the one request to the
    provider says "Generate new content" and says "No results." nowhere.
    [main] builds its [instructions] and hands the bare query to the
    provider. *)
Theorem no_results_instruction_never_sent :
  let env := Scripted.env Scripted.long_page in
  let with_openai :=
    main env (Scripted.config "cheerio" "openai" 5 "x") None in
  let with_gemini :=
    main env (Scripted.config "cheerio" "gemini" 5 "x") None in
  (List.length (filter is_post (calls with_openai)) = 1
   /\ existsb (says "Generate new content") (calls with_openai) = true
   /\ existsb (says "No results.") (calls with_openai) = false)
  /\ (List.length (filter is_post (calls with_gemini)) = 1
      /\ existsb (says "Generate new content") (calls with_gemini) = true
      /\ existsb (says "No results.") (calls with_gemini) = false).
Proof. vm_compute. repeat split. Qed.

(** ** The orchestrator *)

Section Orchestrator.

Context {W : Type} (env : Env W) (cfg : Config).

(** One invocation of a strategy: it returns an excerpt, opens once, and
    sends nothing to a provider. *)
Lemma fetch_total s url w :
  (s = RenderedFetch -> teardown_ok env) ->
  exists c w1 t,
    fetch env s url w = (Returned c, w1, t)
    /\ Excerpt c
    /\ List.length (filter (opens s) t) = 1
    /\ filter is_post t = [].
Proof.
  intros Hclose. destruct s; simpl.
  - destruct (cheerio_total env url w) as (c & w1 & -> & E).
    exists c, w1, [AxiosGet url]. auto.
  - specialize (Hclose eq_refl).
    rewrite puppeteer_run. unfold close_after.
    destruct (puppeteer_launch env w) as [[b|e] w1];
      [|do 3 eexists; repeat split; auto with excerpts].
    destruct (browser_newPage env b w1) as [[p|e] w2].
    + destruct (page_goto env p url w2) as [[u|e] w3].
      * destruct (page_evaluate env p w3) as [[ps|e] w4];
          destruct (Hclose b w4) as [w5 ->];
          do 3 eexists; repeat split; auto with excerpts.
      * destruct (Hclose b w3) as [w5 ->];
          do 3 eexists; repeat split; auto with excerpts.
    + destruct (Hclose b w2) as [w5 ->];
        do 3 eexists; repeat split; auto with excerpts.
Qed.

(** A failed fetch gives the fetch-error sentinel. *)
Lemma unfetched_sentinel s url w :
  (s = RenderedFetch -> teardown_ok env) ->
  unfetched env s url w ->
  outcome (fetch env s url w) = Returned error_fetching_content.
Proof.
  intros Hclose. destruct s; simpl.
  - rewrite cheerio_run.
    destruct (axios_get env url w) as [[data|e] w1]; [|reflexivity].
    destruct (cheerio_paragraphs env data); [contradiction|reflexivity].
  - specialize (Hclose eq_refl).
    rewrite puppeteer_run. unfold close_after.
    destruct (puppeteer_launch env w) as [[b|e] w1]; [|reflexivity].
    destruct (browser_newPage env b w1) as [[p|e] w2].
    + destruct (page_goto env p url w2) as [[u|e] w3].
      * destruct (page_evaluate env p w3) as [[ps|e] w4]; [contradiction|].
        destruct (Hclose b w4) as [w5 ->]. reflexivity.
      * destruct (Hclose b w3) as [w5 ->]. reflexivity.
    + destruct (Hclose b w2) as [w5 ->]. reflexivity.
Qed.

Lemma runs_each_length {A B} (f : A -> M W B) l w bs t w' :
  runs_each f l w bs t w' -> List.length bs = List.length l.
Proof. induction 1; simpl; congruence. Qed.

(** The i-th value is what [f] returned on the i-th element. *)
Lemma runs_each_aligned {A B} (f : A -> M W B) l w bs t w' :
  runs_each f l w bs t w' ->
  Forall2 (fun a b => exists w0 w1 t0, f a w0 = (Returned b, w1, t0)) l bs.
Proof. induction 1; constructor; eauto. Qed.

(** The loop of [main], bound to a strategy: one invocation per locator, in
    order, each excerpt pushed behind the ones before. *)
Lemma fetch_loop_selected s :
  selected cfg = Some s ->
  (s = RenderedFetch -> teardown_ok env) ->
  forall locs acc w,
  exists contents w' t,
    fetch_loop env cfg locs acc w
    = (Returned (Some (acc ++ contents)%list), w', t)
    /\ runs_each (fetch env s) (map link locs) w contents t w'
    /\ Forall Excerpt contents
    /\ List.length (filter (opens s) t) = List.length locs
    /\ filter is_post t = [].
Proof.
  intros Hs Hclose.
  assert (Step : forall result rest acc,
             fetch_loop env cfg (result :: rest) acc
             = bind (fetch env s (link result))
                 (fun c => fetch_loop env cfg rest (acc ++ [c])%list)).
  { intros result rest acc. unfold selected in Hs. simpl.
    destruct (String.eqb (fetchLibrary cfg) "puppeteer").
    - injection Hs as <-. reflexivity.
    - destruct (String.eqb (fetchLibrary cfg) "cheerio");
        [injection Hs as <-; reflexivity | discriminate]. }
  induction locs as [|result rest IH]; intros acc w.
  - exists [], w, []. rewrite app_nil_r. repeat split; constructor.
  - rewrite Step. unfold bind.
    destruct (fetch_total s (link result) w Hclose)
      as (c & w1 & t1 & Hf & Ec & Oc & Pc).
    destruct (IH (acc ++ [c])%list w1)
      as (contents & w' & t2 & Hrest & R & Es & Os & Ps).
    rewrite Hf, Hrest.
    exists (c :: contents), w', (t1 ++ t2)%list.
    rewrite <- app_assoc. repeat split.
    + simpl. econstructor; eassumption.
    + constructor; assumption.
    + rewrite filter_app, length_app, Oc, Os. reflexivity.
    + rewrite filter_app, Pc, Ps. reflexivity.
Qed.

Lemma fetch_loop_invalid result rest acc w :
  selected cfg = None ->
  fetch_loop env cfg (result :: rest) acc w
  = (Returned None, w, [ConsoleError "❌ Invalid fetch library specified."]).
Proof.
  unfold selected. intros Hs. simpl.
  destruct (String.eqb (fetchLibrary cfg) "puppeteer"); [discriminate|].
  destruct (String.eqb (fetchLibrary cfg) "cheerio"); [discriminate|].
  reflexivity.
Qed.

Lemma selected_none :
  fetchLibrary cfg <> "puppeteer" -> fetchLibrary cfg <> "cheerio" ->
  selected cfg = None.
Proof.
  intros Hp Hc. unfold selected.
  destruct (String.eqb_spec (fetchLibrary cfg) "puppeteer"); [contradiction|].
  destruct (String.eqb_spec (fetchLibrary cfg) "cheerio"); [contradiction|].
  reflexivity.
Qed.

Lemma main_dispatch contents :
  (if strict_equal (model cfg) "gemini"
   then summarizeWithGemini env cfg (query cfg) contents
   else summarizeWithOpenAI env cfg (query cfg) contents)
  = synthesize env cfg (provider cfg) (query cfg) contents.
Proof.
  unfold provider. destruct (strict_equal (model cfg) "gemini"); reflexivity.
Qed.

(** A model selector that is a string can be upper-cased. *)
Lemma upper_case_of_string m :
  model cfg = JStr m -> call_toUpperCase (model cfg) = Returned tt.
Proof. now intros ->. Qed.

Lemma nonempty_length {A} (l : list A) :
  l <> [] -> Nat.eqb (List.length l) 0 = false.
Proof. destruct l; [contradiction|reflexivity]. Qed.

End Orchestrator.

(** C1, amended.  When the fetch-library selector is 'puppeteer' or
    'cheerio', the model selector is a string and, for 'puppeteer', closing
    a browser does not fail: for every non-empty list of N result locators
    returned by search, the
    orchestrator invokes the selected fetch strategy exactly once per
    locator, strictly in locator order, and accumulates exactly N excerpts,
    the i-th being what the i-th invocation returned (its sentinel when the
    fetch failed); the synthesis provider is then invoked exactly once, over
    that whole list, and its result is printed. *)
Theorem every_locator_fetched_then_synthesized {W} (env : Env W) cfg s m w
  locs w1 t1 :
  selected cfg = Some s ->
  model cfg = JStr m ->
  (s = RenderedFetch -> teardown_ok env) ->
  googleSearch env cfg (query cfg) w = (Returned locs, w1, t1) ->
  locs <> [] ->
  exists contents w2 t2 summary w3,
    runs_each (fetch env s) (map link locs) w1 contents t2 w2
    /\ List.length contents = List.length locs
    /\ Forall Excerpt contents
    /\ Forall2 (fun url c =>
                  exists w0,
                    outcome (fetch env s url w0) = Returned c
                    /\ (unfetched env s url w0 ->
                        c = error_fetching_content))
         (map link locs) contents
    /\ List.length (filter (opens s) t2) = List.length locs
    /\ synthesize env cfg (provider cfg) (query cfg) contents w2
       = (Returned summary, w3,
          [request cfg (provider cfg) (query cfg) contents])
    /\ main env cfg w
       = (Returned tt, w3,
          (t1 ++ t2 ++ [request cfg (provider cfg) (query cfg) contents;
                        ConsoleLogSummary summary])%list)
    /\ List.length (filter is_post (calls (main env cfg w))) = 1.
Proof.
  intros Hs Hm Hclose Hsearch Hne.
  destruct (fetch_loop_selected env cfg s Hs Hclose locs [] w1)
    as (contents & w2 & t2 & Hloop & R & Es & Os & Ps).
  destruct (synthesize_total env cfg (provider cfg) (query cfg) contents w2)
    as (summary & w3 & Hsyn).
  assert (Hmain : main env cfg w
                  = (Returned tt, w3,
                     (t1 ++ t2
                      ++ [request cfg (provider cfg) (query cfg) contents;
                          ConsoleLogSummary (JStr summary)])%list)).
  { unfold main, bind. rewrite Hsearch, (nonempty_length _ Hne), Hloop.
    unfold eval. rewrite (upper_case_of_string cfg m Hm).
    cbn [app]. rewrite main_dispatch, Hsyn. reflexivity. }
  exists contents, w2, t2, (JStr summary), w3.
  repeat split; auto.
  - rewrite <- (length_map link locs). eapply runs_each_length. exact R.
  - eapply Forall2_impl; [|exact (runs_each_aligned _ _ _ _ _ _ R)].
    intros url c (w0 & w0' & t0 & Hf). exists w0.
    assert (O : outcome (fetch env s url w0) = Returned c)
      by now rewrite Hf.
    split; [exact O|]. intros U.
    pose proof (unfetched_sentinel env s url w0 Hclose U) as S.
    congruence.
  - rewrite Hmain. unfold calls. cbn [snd].
    destruct (googleSearch_total env cfg (query cfg) w)
      as (locs' & w1' & Hs').
    rewrite Hsearch in Hs'. injection Hs' as _ _ ->.
    rewrite !filter_app, Ps.
    destruct (provider cfg); reflexivity.
Qed.

(** C10.  When the fetch-library selector is neither 'puppeteer' nor
    'cheerio' and search returns at least one locator, the run ends in the
    first turn of the fetch loop: after the request to the search backend it
    prints "Invalid fetch library specified." and returns, with no call to a
    fetch strategy, no call to a synthesis provider and no summary. *)
Theorem invalid_fetch_library_aborts {W} (env : Env W) cfg w locs w1 t1 :
  fetchLibrary cfg <> "puppeteer" ->
  fetchLibrary cfg <> "cheerio" ->
  googleSearch env cfg (query cfg) w = (Returned locs, w1, t1) ->
  locs <> [] ->
  main env cfg w
  = (Returned tt, w1,
     [AxiosGet (Some (search_url env cfg (query cfg)));
      ConsoleError "❌ Invalid fetch library specified."]).
Proof.
  intros Hp Hc Hsearch Hne.
  pose proof (selected_none cfg Hp Hc) as Hs.
  destruct (googleSearch_total env cfg (query cfg) w) as (locs' & w1' & Hs').
  rewrite Hsearch in Hs'. injection Hs' as _ _ ->.
  unfold main, bind. rewrite Hsearch, (nonempty_length _ Hne).
  destruct locs as [|result rest]; [contradiction|].
  rewrite (fetch_loop_invalid env cfg result rest [] w1 Hs). reflexivity.
Qed.

Lemma every_locator_fetched_then_synthesized_witness :
  let env := Scripted.env Scripted.second_times_out in
  let cfg := Scripted.config "cheerio" "openai" 5 "weather today" in
  let locs := [{| title := Some "Forecast";
                  link := Some "https://a.example/" |};
               {| title := Some "Radar";
                  link := Some "https://b.example/" |};
               {| title := Some "Almanac";
                  link := Some "https://c.example/" |}] in
  let t1 := [AxiosGet (Some (search_url env cfg "weather today"))] in
  selected cfg = Some LightweightFetch
  /\ model cfg = JStr "openai"
  /\ googleSearch env cfg (query cfg) None = (Returned locs, None, t1)
  /\ exists contents w2 t2 summary w3,
       runs_each (fetch env LightweightFetch) (map link locs) None contents
         t2 w2
       /\ List.length contents = List.length locs
       /\ Forall Excerpt contents
       /\ Forall2 (fun url c =>
                     exists w0,
                       outcome (fetch env LightweightFetch url w0)
                       = Returned c
                       /\ (unfetched env LightweightFetch url w0 ->
                           c = error_fetching_content))
            (map link locs) contents
       /\ List.length (filter (opens LightweightFetch) t2) = List.length locs
       /\ synthesize env cfg (provider cfg) (query cfg) contents w2
          = (Returned summary, w3,
             [request cfg (provider cfg) (query cfg) contents])
       /\ main env cfg None
          = (Returned tt, w3,
             (t1 ++ t2 ++ [request cfg (provider cfg) (query cfg) contents;
                           ConsoleLogSummary summary])%list)
       /\ List.length (filter is_post (calls (main env cfg None))) = 1.
Proof.
  cbv zeta. split; [reflexivity|]. split; [reflexivity|].
  split; [reflexivity|].
  apply (every_locator_fetched_then_synthesized
           (Scripted.env Scripted.second_times_out)
           (Scripted.config "cheerio" "openai" 5 "weather today")
           LightweightFetch "openai" None).
  - reflexivity.
  - reflexivity.
  - intros H. discriminate H.
  - reflexivity.
  - intros H. discriminate H.
Defined.

(** The claim as worded fails when the selector names no strategy: search
    returns one locator, and the run makes no call to a fetch strategy and
    none to a synthesis provider. *)
Lemma every_locator_fetched_counterexample :
  let env := Scripted.env Scripted.long_page in
  let cfg := Scripted.config "playwright" "openai" 5 "x" in
  outcome (googleSearch env cfg (query cfg) None)
  = Returned [{| title := Some "Example"; link := Scripted.page_url |}]
  /\ main env cfg None
     = (Returned tt, None,
        [AxiosGet
           (Some "https://www.googleapis.com/customsearch/v1?q=x&key=key&cx=cx");
         ConsoleError "❌ Invalid fetch library specified."]).
Proof. split; reflexivity. Qed.

Lemma invalid_fetch_library_aborts_witness :
  let env := Scripted.env Scripted.seven_results in
  let cfg := Scripted.config "axios" "gemini" 3 "test" in
  fetchLibrary cfg <> "puppeteer"
  /\ fetchLibrary cfg <> "cheerio"
  /\ outcome (googleSearch env cfg (query cfg) None)
     = Returned (map (fun n => locator_of (Scripted.numbered n)) [1; 2; 3])
  /\ main env cfg None
     = (Returned tt, None,
        [AxiosGet
           (Some "https://www.googleapis.com/customsearch/v1?q=test&key=key&cx=cx");
         ConsoleError "❌ Invalid fetch library specified."]).
Proof.
  cbv zeta. split; [discriminate|]. split; [discriminate|].
  split; [reflexivity|].
  apply (invalid_fetch_library_aborts (Scripted.env Scripted.seven_results)
           (Scripted.config "axios" "gemini" 3 "test") None
           (map (fun n => locator_of (Scripted.numbered n)) [1; 2; 3])
           None
           [AxiosGet
              (Some "https://www.googleapis.com/customsearch/v1?q=test&key=key&cx=cx")]).
  - discriminate.
  - discriminate.
  - reflexivity.
  - discriminate.
Defined.

(** ** The scenarios of the specification *)

(** Scenario 2: three results, the second page times out. *)
Example scenario_2 :
  let env := Scripted.env Scripted.second_times_out in
  let cfg := Scripted.config "cheerio" "openai" 5 "weather today" in
  let contents := [Scripted.replicate 120 "a"; "Error fetching content.";
                   Scripted.replicate 120 "a"] in
  main env cfg None
  = (Returned tt, None,
     [AxiosGet
        (Some "https://www.googleapis.com/customsearch/v1?q=weather%20today&key=key&cx=cx");
      AxiosGet (Some "https://a.example/");
      AxiosGet (Some "https://b.example/");
      AxiosGet (Some "https://c.example/");
      request cfg ProviderA "weather today" contents;
      ConsoleLogSummary (JStr "Sunny, with a light breeze.")]).
Proof. vm_compute. reflexivity. Qed.

(** Scenario 3: 50 characters of text are below the threshold. *)
Example scenario_3 :
  excerpt (Scripted.replicate 50 "a") = "No meaningful content found.".
Proof. reflexivity. Qed.

(** Scenario 5: the synthesis backend cannot be reached. *)
Example scenario_5 :
  outcome (summarizeWithGemini (Scripted.env Scripted.long_page)
             (Scripted.config "cheerio" "gemini" 5 "x") "x" ["a"] None)
  = Returned (JStr "Error generating summary.").
Proof. reflexivity. Qed.

(** * Further properties of the program *)

(** ** The excerpt *)

Lemma length_append s1 s2 :
  String.length (s1 ++ s2) = String.length s1 + String.length s2.
Proof. induction s1 as [|c s1 IH]; simpl; auto. Qed.

Lemma substring_0_all m s :
  String.length s <= m -> substring 0 m s = s.
Proof.
  revert m; induction s as [|c s IH]; intros [|m] H; simpl in *;
    try reflexivity; try lia.
  f_equal. apply IH. lia.
Qed.

Lemma excerpt_not_fetch_error content :
  excerpt content <> error_fetching_content.
Proof.
  destruct (excerpt_envelope content) as [H|H]; intros E.
  - apply (f_equal String.length) in E.
    rewrite length_substring_0 in E. pose proof (length_trim content).
    change (String.length error_fetching_content) with 23 in E. lia.
  - discriminate E.
Qed.

(** X1.  A text that is at most 2000 characters long, and longer than 100
    once trimmed, is its own excerpt: nothing is cut and nothing is
    trimmed. *)
Theorem excerpt_keeps_short_text content :
  100 < String.length (trim content) ->
  String.length content <= 2000 ->
  excerpt content = content.
Proof.
  intros L S. rewrite excerpt_long by assumption.
  now apply substring_0_all.
Qed.

Lemma excerpt_keeps_short_text_witness :
  excerpt (" " ++ Scripted.replicate 150 "a" ++ " ")
  = " " ++ Scripted.replicate 150 "a" ++ " ".
Proof.
  apply excerpt_keeps_short_text; vm_compute; lia.
Defined.

Lemma replicate_succ n c :
  Scripted.replicate (S n) c = String c (Scripted.replicate n c).
Proof. reflexivity. Qed.

Lemma trimStart_spaces n s :
  trimStart (Scripted.replicate n " " ++ s) = trimStart s.
Proof.
  induction n as [|n IH]; [reflexivity|].
  rewrite replicate_succ. simpl. exact IH.
Qed.

Lemma substring_0_spaces m n s :
  m <= n ->
  substring 0 m (Scripted.replicate n " " ++ s) = Scripted.replicate m " ".
Proof.
  revert n; induction m as [|m IH]; intros n H.
  - destruct (Scripted.replicate n " " ++ s); reflexivity.
  - destruct n as [|n]; [lia|].
    rewrite !replicate_succ. simpl. f_equal. apply IH. lia.
Qed.

(** X2.  The 2000 characters are counted on the untrimmed text: a text that
    is longer than 100 characters once trimmed, put behind 2000 or more
    spaces, has an excerpt of 2000 spaces and none of the text. *)
Theorem excerpt_of_padded_text n content :
  2000 <= n ->
  100 < String.length (trim content) ->
  excerpt (Scripted.replicate n " " ++ content)
  = Scripted.replicate 2000 " ".
Proof.
  intros N L.
  rewrite excerpt_long.
  - now apply substring_0_spaces.
  - unfold trim in *. now rewrite trimStart_spaces.
Qed.

Lemma excerpt_of_padded_text_witness :
  excerpt (Scripted.replicate 2500 " " ++ Scripted.replicate 150 "a")
  = Scripted.replicate 2000 " ".
Proof.
  apply (excerpt_of_padded_text 2500 (Scripted.replicate 150 "a"));
    vm_compute; lia.
Defined.

(** ** The fetch strategies *)

(** X3.  The cheerio strategy never throws: whatever the page request and
    the parsing do, it makes the one request for the page and returns an
    excerpt (text from the page or a sentinel) of 1 to 2000 characters. *)
Theorem cheerio_always_returns_an_excerpt {W} (env : Env W) url w :
  exists s w1,
    fetchPageContentWithCheerio env url w = (Returned s, w1, [AxiosGet url])
    /\ Excerpt s
    /\ 1 <= String.length s <= 2000.
Proof.
  destruct (cheerio_total env url w) as (s & w1 & H & E).
  exists s, w1. auto using Excerpt_bounds.
Qed.

(** X4.  When closing a browser does not fail, the puppeteer strategy never
    throws: whatever the launch, the new page, the navigation and the
    evaluation do, it returns an excerpt of 1 to 2000 characters. *)
Theorem puppeteer_returns_an_excerpt_when_closed {W} (env : Env W) url w :
  teardown_ok env ->
  exists s,
    outcome (fetchPageContentWithPuppeteer env url w) = Returned s
    /\ Excerpt s
    /\ 1 <= String.length s <= 2000.
Proof.
  intros Hclose.
  destruct (puppeteer_total env url w Hclose) as (s & w1 & t & H & E & _).
  exists s. rewrite H. auto using Excerpt_bounds.
Qed.

Lemma scripted_teardown_ok s :
  Scripted.close_reply s = Returned tt -> teardown_ok (Scripted.env s).
Proof. intros H b w. exists w. simpl. now rewrite H. Qed.

Lemma puppeteer_returns_an_excerpt_when_closed_witness :
  teardown_ok (Scripted.env Scripted.unreachable_page)
  /\ exists s,
       outcome (fetchPageContentWithPuppeteer
                  (Scripted.env Scripted.unreachable_page)
                  Scripted.page_url None) = Returned s
       /\ Excerpt s
       /\ 1 <= String.length s <= 2000.
Proof.
  assert (T : teardown_ok (Scripted.env Scripted.unreachable_page)).
  { intros b w. exists w. reflexivity. }
  split; [exact T|].
  exact (puppeteer_returns_an_excerpt_when_closed
           (Scripted.env Scripted.unreachable_page) Scripted.page_url None
           T).
Defined.

(** X5.  When [puppeteer.launch()] rejects there is no browser: the
    strategy returns "Error fetching content." and the launch is its only
    call, the [finally] block closes nothing. *)
Theorem nothing_to_close_when_launch_fails {W} (env : Env W) url w e w1 :
  puppeteer_launch env w = (Thrown e, w1) ->
  fetchPageContentWithPuppeteer env url w
  = (Returned error_fetching_content, w1, [PuppeteerLaunch]).
Proof. intros H. rewrite puppeteer_run, H. reflexivity. Qed.

Lemma nothing_to_close_when_launch_fails_witness :
  let env := Cases.without_browser (Scripted.env Scripted.long_page) in
  fetchPageContentWithPuppeteer env Scripted.page_url None
  = (Returned "Error fetching content.", None, [PuppeteerLaunch]).
Proof.
  cbv zeta.
  apply (nothing_to_close_when_launch_fails
           (Cases.without_browser (Scripted.env Scripted.long_page))
           Scripted.page_url None "Failed to launch the browser process"
           None).
  reflexivity.
Defined.

Lemma puppeteer_calls_shape {W} (env : Env W) url w :
  exists b p,
    In (calls (fetchPageContentWithPuppeteer env url w))
       (puppeteer_shapes b p url).
Proof.
  rewrite puppeteer_run. unfold close_after, puppeteer_shapes, calls.
  destruct (puppeteer_launch env w) as [[b|e] w1];
    [|exists 0, 0; simpl; auto].
  destruct (browser_newPage env b w1) as [[p|e1] w2].
  - exists b, p.
    destruct (page_goto env p url w2) as [[u|e2] w3].
    + destruct (page_evaluate env p w3) as [[ps|e3] w4];
        destruct (browser_close env b w4) as [[u'|e4] w5]; simpl; auto.
    + destruct (browser_close env b w3) as [[u'|e4] w5]; simpl; auto.
  - exists b, 0.
    destruct (browser_close env b w2) as [[u'|e4] w5]; simpl; auto.
Qed.

(** X6.  The puppeteer strategy makes its calls in one order and stops at
    the first that fails: after the launch it opens a page only if the
    launch gave a browser, navigates (to the address it was given) only if
    the page was opened, evaluates only if the navigation succeeded, and
    closes the browser it launched as its last call; when the launch fails
    the launch is the only call. *)
Theorem puppeteer_calls_in_order {W} (env : Env W) url w :
  calls (fetchPageContentWithPuppeteer env url w) = puppeteer_calls env url w.
Proof.
  rewrite puppeteer_run. unfold close_after, puppeteer_calls, calls.
  destruct (puppeteer_launch env w) as [[b|e] w1]; [|reflexivity].
  destruct (browser_newPage env b w1) as [[p|e1] w2].
  - destruct (page_goto env p url w2) as [[u|e2] w3].
    + destruct (page_evaluate env p w3) as [[ps|e3] w4];
        destruct (browser_close env b w4) as [[u'|e4] w5]; reflexivity.
    + destruct (browser_close env b w3) as [[u'|e4] w5]; reflexivity.
  - destruct (browser_close env b w2) as [[u'|e4] w5]; reflexivity.
Qed.

Lemma fetch_run_cases {W} (env : Env W) s url w :
  (s = RenderedFetch -> teardown_ok env) ->
  (unfetched env s url w
   /\ outcome (fetch env s url w) = Returned error_fetching_content)
  \/ (exists ps w', fetched env s url w ps w'
      /\ outcome (fetch env s url w) = Returned (excerpt (join " " ps))).
Proof.
  intros Hclose. destruct s; simpl.
  - rewrite cheerio_run.
    destruct (axios_get env url w) as [[data|e] w1]; [|left; auto].
    destruct (cheerio_paragraphs env data) as [ps|e] eqn:P;
      [|left; auto].
    right. exists ps, w1. split; [|reflexivity]. eauto.
  - specialize (Hclose eq_refl).
    rewrite puppeteer_run. unfold close_after.
    destruct (puppeteer_launch env w) as [[b|e] w1] eqn:E1; [|left; auto].
    destruct (browser_newPage env b w1) as [[p|e] w2] eqn:E2.
    + destruct (page_goto env p url w2) as [[[]|e] w3] eqn:E3.
      * destruct (page_evaluate env p w3) as [[ps|e] w4] eqn:E4.
        -- destruct (Hclose b w4) as [w5 Hc]. rewrite Hc.
           right. exists ps, w5. split; [|reflexivity].
           exists b, w1, p, w2, w3, w4. repeat split; auto.
        -- destruct (Hclose b w4) as [w5 ->]. left; auto.
      * destruct (Hclose b w3) as [w5 ->]. left; auto.
    + destruct (Hclose b w2) as [w5 ->]. left; auto.
Qed.

(** X7.  The two sentinels tell the two failures apart.  With a close that
    does not fail, a strategy returns "Error fetching content." exactly when
    the fetch failed: a page that was fetched never gives that string, not
    even a page whose text is that string. *)
Theorem fetch_error_sentinel_iff_unfetched {W} (env : Env W) s url w :
  (s = RenderedFetch -> teardown_ok env) ->
  outcome (fetch env s url w) = Returned error_fetching_content
  <-> unfetched env s url w.
Proof.
  intros Hclose. split.
  - intros O.
    destruct (fetch_run_cases env s url w Hclose)
      as [[U _]|(ps & w' & _ & E)]; [exact U|].
    rewrite E in O. injection O as O.
    now apply excerpt_not_fetch_error in O.
  - now apply unfetched_sentinel.
Qed.

Lemma fetch_error_sentinel_iff_unfetched_witness :
  let env := Scripted.env Scripted.unreachable_page in
  outcome (fetch env RenderedFetch Scripted.page_url None)
  = Returned error_fetching_content
  <-> unfetched env RenderedFetch Scripted.page_url None.
Proof.
  cbv zeta.
  apply (fetch_error_sentinel_iff_unfetched
           (Scripted.env Scripted.unreachable_page) RenderedFetch
           Scripted.page_url None).
  intros _. apply scripted_teardown_ok. reflexivity.
Defined.

(** ** Search with a limit below one *)

Lemma arr_slice_0_negative {A} (l : list A) k :
  1 <= k ->
  arr_slice l 0 (- Z.of_nat k) = firstn (List.length l - k) l.
Proof.
  intros Hk. unfold arr_slice, clamp.
  destruct (Z.ltb_spec (- Z.of_nat k) 0) as [_|H]; [|lia].
  cbn [Z.ltb Z.compare Z.to_nat Nat.min]. rewrite Nat.sub_0_r. cbn [skipn].
  f_equal. lia.
Qed.

Lemma arr_slice_0_0 {A} (l : list A) : arr_slice l 0 0 = [].
Proof. unfold arr_slice, clamp. reflexivity. Qed.

(** X8.  With a result count of 0 search returns nothing whatever the
    backend answers, and the run is the request to the search backend
    followed by "No results found.". *)
Theorem zero_limit_finds_nothing {W} (env : Env W) cfg w :
  numResults cfg = 0%Z ->
  exists w1,
    googleSearch env cfg (query cfg) w
    = (Returned [], w1, [AxiosGet (Some (search_url env cfg (query cfg)))])
    /\ main env cfg w
       = (Returned tt, w1,
          [AxiosGet (Some (search_url env cfg (query cfg)));
           ConsoleLog "❌ No results found."]).
Proof.
  intros H0.
  assert (S : exists w1,
             googleSearch env cfg (query cfg) w
             = (Returned [], w1,
                [AxiosGet (Some (search_url env cfg (query cfg)))])).
  { rewrite googleSearch_run, H0.
    destruct (search_get env (search_url env cfg (query cfg)) w)
      as [[found|e] w1]; exists w1; [|reflexivity].
    now rewrite arr_slice_0_0. }
  destruct S as [w1 S]. exists w1. split; [exact S|].
  rewrite (main_no_results _ _ _ _ _ S). reflexivity.
Qed.

Lemma zero_limit_finds_nothing_witness :
  let env := Scripted.env Scripted.seven_results in
  let cfg := Scripted.config "cheerio" "openai" 0 "test" in
  exists w1,
    googleSearch env cfg (query cfg) None
    = (Returned [], w1, [AxiosGet (Some (search_url env cfg (query cfg)))])
    /\ main env cfg None
       = (Returned tt, w1,
          [AxiosGet (Some (search_url env cfg (query cfg)));
           ConsoleLog "❌ No results found."]).
Proof.
  cbv zeta.
  apply (zero_limit_finds_nothing (Scripted.env Scripted.seven_results)
           (Scripted.config "cheerio" "openai" 0 "test") None).
  reflexivity.
Defined.

(** X9.  A negative result count -k counts from the end: on a successful
    response search returns all items but the last k, in the backend's
    order, and nothing when there are k items or fewer. *)
Theorem negative_limit_drops_last_items {W} (env : Env W) cfg q w items w1
  k :
  1 <= k ->
  numResults cfg = (- Z.of_nat k)%Z ->
  search_get env (search_url env cfg q) w = (Returned (Some items), w1) ->
  googleSearch env cfg q w
  = (Returned (map locator_of (firstn (List.length items - k) items)), w1,
     [AxiosGet (Some (search_url env cfg q))]).
Proof.
  intros Hk HL Hget. rewrite googleSearch_run, Hget, HL.
  now rewrite arr_slice_0_negative.
Qed.

Lemma negative_limit_drops_last_items_witness :
  let env := Scripted.env Scripted.seven_results in
  let cfg := Scripted.config "cheerio" "openai" (-2) "test" in
  outcome (googleSearch env cfg "test" None)
  = Returned (map (fun n => locator_of (Scripted.numbered n))
                [1; 2; 3; 4; 5]).
Proof.
  cbv zeta.
  rewrite (negative_limit_drops_last_items
             (Scripted.env Scripted.seven_results)
             (Scripted.config "cheerio" "openai" (-2) "test") "test" None
             (map Scripted.numbered [1; 2; 3; 4; 5; 6; 7]) None 2);
    [reflexivity | lia | reflexivity | reflexivity].
Defined.

(** ** Synthesis: the answer that is there *)

Lemma step_get_prop k v x :
  step (Field k) v = Some x -> get_prop v k = Returned x.
Proof.
  destruct v; simpl; try discriminate. now intros ->.
Qed.

Lemma step_get_first v x :
  step First v = Some x -> get_first v = Returned x.
Proof.
  destruct v as [| | | |s|l|props]; simpl; try discriminate.
  - destruct s; [discriminate|]. now intros [= <-].
  - destruct l; [discriminate|]. now intros [= <-].
  - now intros ->.
Qed.

Lemma step_field_not_nullish k v x :
  step (Field k) v = Some x -> nullish v = false.
Proof. destruct v; simpl; try discriminate; reflexivity. Qed.

(** One step of a path that leads to the generated text. *)
Ltac walk R x S :=
  cbn [resolve] in R;
  match type of R with
  | match step ?s ?v with _ => _ end = _ =>
      destruct (step s v) as [x|] eqn:S; [|discriminate R]
  end.

Lemma read_generated_text p data s :
  generated_text p data = Some s ->
  read_text p data = Returned (JStr (summary_of p s)).
Proof.
  unfold generated_text.
  destruct (resolve (text_path p) data) as [v|] eqn:R; [|discriminate].
  destruct v as [| | | |s'| |]; try discriminate. intros [= ->].
  destruct p; cbn [text_path read_text summary_of] in *.
  - walk R choices S1. walk R choice S2. walk R message S3.
    walk R content S4. cbn [resolve] in R. injection R as ->.
    unfold openai_text.
    rewrite (step_get_prop _ _ _ S1). cbn [and_then].
    rewrite (step_get_first _ _ S2). cbn [and_then].
    rewrite (step_get_prop _ _ _ S3). cbn [and_then].
    rewrite (step_get_prop _ _ _ S4). reflexivity.
  - walk R candidates S1. walk R candidate S2. walk R content S3.
    walk R parts S4. walk R part S5. walk R text S6.
    cbn [resolve] in R. injection R as ->.
    unfold gemini_text, optional.
    rewrite (step_get_prop _ _ _ S1). cbn [and_then].
    rewrite (step_get_first _ _ S2). cbn [and_then].
    rewrite (step_field_not_nullish _ _ _ S3).
    rewrite (step_get_prop _ _ _ S3). cbn [and_then].
    rewrite (step_field_not_nullish _ _ _ S4).
    rewrite (step_get_prop _ _ _ S4). cbn [and_then].
    rewrite (step_get_first _ _ S5). cbn [and_then].
    rewrite (step_field_not_nullish _ _ _ S6).
    rewrite (step_get_prop _ _ _ S6). cbn [and_then call_trim].
    unfold or_else, truthy.
    destruct (String.eqb (trim s) EmptyString); reflexivity.
Qed.

(** X10.  When the answer's body carries the generated text (every field on
    the way to it is there and it is a string), the provider returns that
    text trimmed, after its one request; ProviderB returns "Error generating
    summary." instead when the trimmed text is empty. *)
Theorem generated_text_is_returned_trimmed {W} (env : Env W) cfg p q cs w
  data w1 s :
  answer env cfg p q cs w = (Returned data, w1) ->
  generated_text p data = Some s ->
  synthesize env cfg p q cs w
  = (Returned (JStr (summary_of p s)), w1, [request cfg p q cs]).
Proof.
  intros Ha G. rewrite synthesize_run, Ha.
  now rewrite (read_generated_text _ _ _ G).
Qed.

Lemma generated_text_is_returned_trimmed_witness :
  let env := Scripted.env Cases.candidate_answer in
  let cfg := Scripted.config "cheerio" "gemini" 5 "x" in
  generated_text ProviderB Cases.candidate_data
  = Some (" Mostly dry. " ++ newline)
  /\ summarizeWithGemini env cfg "x" ["a"] None
     = (Returned (JStr "Mostly dry."), None,
        [request cfg ProviderB "x" ["a"]]).
Proof.
  cbv zeta. split; [reflexivity|].
  apply (generated_text_is_returned_trimmed
           (Scripted.env Cases.candidate_answer)
           (Scripted.config "cheerio" "gemini" 5 "x") ProviderB "x" ["a"]
           None Cases.candidate_data None (" Mostly dry. " ++ newline));
    reflexivity.
Defined.

(** X11.  ProviderB never returns the empty string, whatever the answer:
    a generated text that trims to nothing is replaced by "Error generating
    summary.". *)
Theorem gemini_summary_is_never_empty {W} (env : Env W) cfg q cs w :
  exists s,
    outcome (summarizeWithGemini env cfg q cs w) = Returned (JStr s)
    /\ s <> EmptyString.
Proof. apply gemini_nonempty. Qed.

(** X12.  Neither provider throws, whatever the answer to its request, be
    it an error, a body of another shape or a well-formed one: each sends
    exactly one request and returns a string. *)
Theorem providers_never_throw {W} (env : Env W) cfg p q cs w :
  exists s w1,
    synthesize env cfg p q cs w
    = (Returned (JStr s), w1, [request cfg p q cs]).
Proof. apply synthesize_total. Qed.

(** ** Synthesis: the size of the prompt *)

Lemma length_join_le sep bound l :
  Forall (fun c => String.length c <= bound) l ->
  String.length (join sep l) <= List.length l * (bound + String.length sep).
Proof.
  unfold join. induction 1 as [|c l Hc Hl IH]; [simpl; lia|].
  destruct l as [|c' l'].
  - simpl. lia.
  - change (String.concat sep (c :: c' :: l'))
      with (c ++ sep ++ String.concat sep (c' :: l')).
    rewrite !length_append. cbn [List.length] in *. lia.
Qed.

Lemma length_join_excerpts cs :
  Forall Excerpt cs ->
  String.length (join (newline ++ newline) cs) <= 2002 * List.length cs.
Proof.
  intros H.
  assert (B : Forall (fun c => String.length c <= 2000) cs).
  { eapply Forall_impl; [|exact H]. intros c E.
    apply Excerpt_bounds in E. lia. }
  apply (length_join_le (newline ++ newline)) in B.
  change (String.length (newline ++ newline)) with 2 in B. lia.
Qed.

(** X13.  The excerpt envelope bounds the request: when every excerpt comes
    from a fetch strategy, no string of the body either provider sends is
    longer than 160 characters plus the query plus 2002 characters for each
    excerpt. *)
Theorem prompt_is_bounded q cs :
  Forall Excerpt cs ->
  let bound := 160 + String.length q + 2002 * List.length cs in
  Forall (fun s => String.length s <= bound) (strings_of (openai_body q cs))
  /\ Forall (fun s => String.length s <= bound)
       (strings_of (gemini_body q cs)).
Proof.
  intros H bound. pose proof (length_join_excerpts cs H) as J.
  unfold openai_body, openai_messages, gemini_body, gemini_contents.
  cbn [strings_of flat_map app].
  split; repeat (apply Forall_cons); try apply Forall_nil;
    rewrite ?length_append; cbn [String.length quote newline];
    subst bound; lia.
Qed.

Lemma prompt_is_bounded_witness :
  let cs := [error_fetching_content; no_meaningful_content] in
  Forall Excerpt cs
  /\ Forall (fun s => String.length s <= 160 + 1 + 2002 * 2)
       (strings_of (openai_body "x" cs))
  /\ Forall (fun s => String.length s <= 160 + 1 + 2002 * 2)
       (strings_of (gemini_body "x" cs)).
Proof.
  cbv zeta.
  assert (E : Forall Excerpt [error_fetching_content; no_meaningful_content]).
  { repeat constructor.
    apply (FromPage EmptyString), NoMeaningfulContent. simpl. lia. }
  split; [exact E|].
  exact (prompt_is_bounded "x" _ E).
Defined.

(** ** Whole runs *)

Section Runs.

Context {W : Type} (env : Env W) (cfg : Config).

(** A run that reaches the fetch loop with a strategy selected. *)
Lemma main_selected_run s m w locs w1 t1 :
  selected cfg = Some s ->
  model cfg = JStr m ->
  (s = RenderedFetch -> teardown_ok env) ->
  googleSearch env cfg (query cfg) w = (Returned locs, w1, t1) ->
  locs <> [] ->
  exists contents w2 t2 summary w3,
    runs_each (fetch env s) (map link locs) w1 contents t2 w2
    /\ Forall Excerpt contents
    /\ filter is_post t2 = []
    /\ main env cfg w
       = (Returned tt, w3,
          (t1 ++ t2 ++ [request cfg (provider cfg) (query cfg) contents;
                        ConsoleLogSummary (JStr summary)])%list).
Proof.
  intros Hs Hm Hclose Hsearch Hne.
  destruct (fetch_loop_selected env cfg s Hs Hclose locs [] w1)
    as (contents & w2 & t2 & Hloop & R & Es & _ & Ps).
  destruct (synthesize_total env cfg (provider cfg) (query cfg) contents w2)
    as (summary & w3 & Hsyn).
  exists contents, w2, t2, summary, w3. repeat split; auto.
  unfold main, bind. rewrite Hsearch, (nonempty_length _ Hne), Hloop.
  unfold eval. rewrite (upper_case_of_string cfg m Hm).
  cbn [app]. rewrite main_dispatch, Hsyn. reflexivity.
Qed.

Lemma selected_rendered :
  selected cfg = Some RenderedFetch -> fetchLibrary cfg = "puppeteer".
Proof.
  unfold selected.
  destruct (String.eqb_spec (fetchLibrary cfg) "puppeteer"); [auto|].
  destruct (String.eqb (fetchLibrary cfg) "cheerio"); discriminate.
Qed.

Lemma search_calls q w :
  calls (googleSearch env cfg q w) = [AxiosGet (Some (search_url env cfg q))].
Proof.
  destruct (googleSearch_total env cfg q w) as (locs & w1 & ->).
  reflexivity.
Qed.

Lemma shapes_quiet b p url t :
  In t (puppeteer_shapes b p url) ->
  filter is_report t = [] /\ filter is_post t = []
  /\ List.length (filter (opens RenderedFetch) t) = 1.
Proof.
  intros [<-|[<-|[<-|[<-|[]]]]]; repeat split.
Qed.

Lemma fetch_prints_nothing s url w :
  filter is_report (calls (fetch env s url w)) = [].
Proof.
  destruct s; simpl.
  - destruct (cheerio_total env url w) as (c & w1 & -> & _). reflexivity.
  - destruct (puppeteer_calls_shape env url w) as (b & p & H).
    now apply shapes_quiet in H.
Qed.

Lemma runs_each_calls {A B} (f : A -> M W B) (P : list Event -> Prop) :
  P [] ->
  (forall t1 t2, P t1 -> P t2 -> P (t1 ++ t2)%list) ->
  (forall a w, P (calls (f a w))) ->
  forall l w bs t w', runs_each f l w bs t w' -> P t.
Proof.
  intros Pnil Papp Pf l w bs t w' R.
  induction R as [|a l w b w1 t1 bs t2 w2 Hf R IH]; [exact Pnil|].
  apply Papp; [|exact IH].
  specialize (Pf a w). now rewrite Hf in Pf.
Qed.

Lemma runs_each_quiet s l w bs t w' :
  runs_each (fetch env s) l w bs t w' -> filter is_report t = [].
Proof.
  apply (runs_each_calls (fetch env s)
           (fun t => filter is_report t = [])).
  - reflexivity.
  - intros t1 t2 H1 H2. now rewrite filter_app, H1, H2.
  - intros a w0. apply fetch_prints_nothing.
Qed.

End Runs.

(** X14.  When the model selector is a string, and unless the puppeteer
    strategy is selected and closing a browser fails, [main] does not
    throw, whatever the search backend, the pages and the provider do; the
    last call of the run is one of its three reports ("No results found.",
    "Invalid fetch library specified." or the summary, a string), and the
    run prints no other line of these kinds before it. *)
Theorem main_ends_with_one_report {W} (env : Env W) cfg m w :
  model cfg = JStr m ->
  (fetchLibrary cfg = "puppeteer" -> teardown_ok env) ->
  exists w' before report,
    main env cfg w = (Returned tt, w', (before ++ [report])%list)
    /\ final_report report
    /\ filter is_report before = [].
Proof.
  intros Hm Hclose.
  destruct (googleSearch_total env cfg (query cfg) w) as (locs & w1 & Hs).
  destruct locs as [|result rest].
  - rewrite (main_no_results _ _ _ _ _ Hs).
    eexists _, _, _. split; [reflexivity|]. split; [|reflexivity].
    left. reflexivity.
  - destruct (selected cfg) as [s|] eqn:Sel.
    + assert (Hc : s = RenderedFetch -> teardown_ok env).
      { intros ->. apply Hclose. now apply selected_rendered. }
      destruct (main_selected_run env cfg s m w _ _ _ Sel Hm Hc Hs)
        as (contents & w2 & t2 & summary & w3 & R & _ & _ & Hmain);
        [discriminate|].
      rewrite Hmain.
      exists w3, ([AxiosGet (Some (search_url env cfg (query cfg)))] ++ t2
                  ++ [request cfg (provider cfg) (query cfg) contents])%list,
        (ConsoleLogSummary (JStr summary)).
      split; [now rewrite <- !app_assoc|]. split.
      * right. right. now exists summary.
      * rewrite !filter_app, (runs_each_quiet env _ _ _ _ _ _ R).
        destruct (provider cfg); reflexivity.
    + unfold main, bind. rewrite Hs. cbn [List.length Nat.eqb].
      rewrite (fetch_loop_invalid env cfg result rest [] w1 Sel).
      eexists _, [AxiosGet _], _. split; [reflexivity|].
      split; [|reflexivity]. right. left. reflexivity.
Qed.

Lemma main_ends_with_one_report_witness :
  let env := Scripted.env Scripted.second_times_out in
  let cfg := Scripted.config "puppeteer" "openai" 5 "weather today" in
  model cfg = JStr "openai"
  /\ teardown_ok env
  /\ exists w' before report,
       main env cfg None = (Returned tt, w', (before ++ [report])%list)
       /\ final_report report
       /\ filter is_report before = [].
Proof.
  cbv zeta.
  assert (T : teardown_ok (Scripted.env Scripted.second_times_out)).
  { intros b w. exists w. reflexivity. }
  split; [reflexivity|]. split; [exact T|].
  apply (main_ends_with_one_report (Scripted.env Scripted.second_times_out)
           (Scripted.config "puppeteer" "openai" 5 "weather today")
           "openai" None).
  - reflexivity.
  - intros _. exact T.
Defined.

(** X15.  With the puppeteer strategy, a browser whose [close()] throws
    ends the run at the first locator: [main] throws what [close()] threw,
    after one launch, with no request to a provider and nothing printed. *)
Theorem close_error_aborts_the_run {W} (env : Env W) cfg w locs w1 t1 e :
  fetchLibrary cfg = "puppeteer" ->
  launch_ok env ->
  teardown_throws env e ->
  googleSearch env cfg (query cfg) w = (Returned locs, w1, t1) ->
  locs <> [] ->
  outcome (main env cfg w) = Thrown e
  /\ filter is_post (calls (main env cfg w)) = []
  /\ filter is_report (calls (main env cfg w)) = []
  /\ List.length (filter (opens RenderedFetch) (calls (main env cfg w))) = 1.
Proof.
  intros Hlib Hlaunch Hclose Hs Hne.
  pose proof (search_calls env cfg (query cfg) w) as Ht1.
  rewrite Hs in Ht1. unfold calls in Ht1. cbn [snd] in Ht1. subst t1.
  destruct locs as [|result rest]; [contradiction|].
  destruct (Hlaunch w1) as (b & w' & Hl).
  pose proof (teardown_error_escapes env (link result) w1 b w' e Hl
                (Hclose b)) as O.
  destruct (puppeteer_calls_shape env (link result) w1) as (b' & p & Sh).
  apply shapes_quiet in Sh. destruct Sh as (Q1 & Q2 & Q3).
  unfold main, bind. rewrite Hs. cbn [List.length Nat.eqb fetch_loop].
  rewrite Hlib. cbn [String.eqb Ascii.eqb Bool.eqb]. unfold bind.
  destruct (fetchPageContentWithPuppeteer env (link result) w1)
    as [[r w2] t] eqn:F.
  unfold outcome, calls in *. cbn [fst snd] in *. subst r.
  cbn [fst snd app filter is_post is_report opens].
  rewrite Q1, Q2, Q3. auto.
Qed.

Lemma close_error_aborts_the_run_witness :
  let env := Scripted.env Scripted.teardown_fails in
  let cfg := Scripted.config "puppeteer" "openai" 5 "x" in
  launch_ok env
  /\ teardown_throws env "Protocol error (Browser.close): Target closed"
  /\ outcome (main env cfg None)
     = Thrown "Protocol error (Browser.close): Target closed"
  /\ filter is_post (calls (main env cfg None)) = []
  /\ filter is_report (calls (main env cfg None)) = []
  /\ List.length
       (filter (opens RenderedFetch) (calls (main env cfg None))) = 1.
Proof.
  cbv zeta.
  assert (L : launch_ok (Scripted.env Scripted.teardown_fails)).
  { intros w. exists 1, w. reflexivity. }
  assert (T : teardown_throws (Scripted.env Scripted.teardown_fails)
                "Protocol error (Browser.close): Target closed").
  { intros b w. reflexivity. }
  split; [exact L|]. split; [exact T|].
  apply (close_error_aborts_the_run (Scripted.env Scripted.teardown_fails)
           (Scripted.config "puppeteer" "openai" 5 "x") None
           [{| title := Some "Example"; link := Scripted.page_url |}] None
           [AxiosGet
              (Some "https://www.googleapis.com/customsearch/v1?q=x&key=key&cx=cx")]).
  - reflexivity.
  - exact L.
  - exact T.
  - reflexivity.
  - discriminate.
Defined.

Lemma posts_of_selected_run {W} (env : Env W) cfg w t2 contents summary :
  filter is_post t2 = [] ->
  filter is_post
    ((calls (googleSearch env cfg (query cfg) w))
     ++ t2 ++ [request cfg (provider cfg) (query cfg) contents;
               ConsoleLogSummary summary])%list
  = [request cfg (provider cfg) (query cfg) contents].
Proof.
  intros P. rewrite search_calls, !filter_app, P.
  destruct (provider cfg); reflexivity.
Qed.

(** X16.  Of the strings, only the exact selector 'gemini' reaches
    ProviderB: with any other string as the model selector, a misspelt or
    differently cased one included, the one request of the run goes to the
    chat-completion endpoint of OpenAI, with the OpenAI key. *)
Theorem other_models_fall_back_to_openai {W} (env : Env W) cfg s m w locs w1
  t1 :
  model cfg = JStr m ->
  m <> "gemini" ->
  selected cfg = Some s ->
  (s = RenderedFetch -> teardown_ok env) ->
  googleSearch env cfg (query cfg) w = (Returned locs, w1, t1) ->
  locs <> [] ->
  exists contents,
    filter is_post (calls (main env cfg w))
    = [AxiosPost openaiEndpoint (openai_body (query cfg) contents)
         (openai_headers cfg)].
Proof.
  intros Hm Hg Hs Hclose Hsearch Hne.
  destruct (main_selected_run env cfg s m w locs w1 t1 Hs Hm Hclose Hsearch
              Hne)
    as (contents & w2 & t2 & summary & w3 & _ & _ & P & Hmain).
  exists contents. rewrite Hmain. unfold calls at 1. cbn [snd].
  replace t1 with (calls (googleSearch env cfg (query cfg) w))
    by now rewrite Hsearch.
  rewrite (posts_of_selected_run env cfg w t2 contents _ P).
  unfold provider. rewrite Hm. cbn [strict_equal].
  destruct (String.eqb_spec m "gemini"); [contradiction|].
  reflexivity.
Qed.

Lemma other_models_fall_back_to_openai_witness :
  let env := Scripted.env Cases.short_page in
  let cfg := Scripted.config "cheerio" "Gemini" 5 "x" in
  model cfg = JStr "Gemini"
  /\ "Gemini" <> "gemini"
  /\ exists contents,
       filter is_post (calls (main env cfg None))
       = [AxiosPost openaiEndpoint (openai_body (query cfg) contents)
            (openai_headers cfg)].
Proof.
  cbv zeta. split; [reflexivity|]. split; [discriminate|].
  apply (other_models_fall_back_to_openai (Scripted.env Cases.short_page)
           (Scripted.config "cheerio" "Gemini" 5 "x") LightweightFetch
           "Gemini" None
           [{| title := Some "Example"; link := Scripted.page_url |}] None
           [AxiosGet
              (Some "https://www.googleapis.com/customsearch/v1?q=x&key=key&cx=cx")]).
  - reflexivity.
  - discriminate.
  - reflexivity.
  - discriminate.
  - reflexivity.
  - discriminate.
Defined.




(** X18.  The result count bounds the whole run: with a count L >= 1, a
    selected strategy, a model selector that is a string and a response of
    n >= 1 items, the pages fetched and the excerpts handed to the provider,
    in its one request, are min(L, n). *)
Theorem provider_gets_limited_excerpts {W} (env : Env W) cfg s m w items
  w1 :
  (1 <= numResults cfg)%Z ->
  selected cfg = Some s ->
  model cfg = JStr m ->
  (s = RenderedFetch -> teardown_ok env) ->
  search_get env (search_url env cfg (query cfg)) w
  = (Returned (Some items), w1) ->
  items <> [] ->
  exists contents,
    List.length contents
    = Nat.min (Z.to_nat (numResults cfg)) (List.length items)
    /\ filter is_post (calls (main env cfg w))
       = [request cfg (provider cfg) (query cfg) contents]
    /\ List.length (filter (opens s) (calls (main env cfg w)))
       = List.length contents
         + match s with LightweightFetch => 1 | RenderedFetch => 0 end.
Proof.
  intros HL Hs Hm Hclose Hget Hne.
  set (locs := map locator_of (firstn (Z.to_nat (numResults cfg)) items)).
  assert (Hsearch : googleSearch env cfg (query cfg) w
                    = (Returned locs, w1,
                       [AxiosGet (Some (search_url env cfg (query cfg)))])).
  { rewrite googleSearch_run, Hget, arr_slice_0 by lia. reflexivity. }
  assert (Hlen : List.length locs
                 = Nat.min (Z.to_nat (numResults cfg)) (List.length items)).
  { unfold locs. now rewrite length_map, length_firstn. }
  assert (Hlocs : locs <> []).
  { intros E. rewrite E in Hlen. simpl in Hlen.
    destruct items; [contradiction|]. simpl in Hlen. lia. }
  destruct (fetch_loop_selected env cfg s Hs Hclose locs [] w1)
    as (contents & w2 & t2 & Hloop & R & _ & Os & Ps).
  destruct (synthesize_total env cfg (provider cfg) (query cfg) contents w2)
    as (summary & w3 & Hsyn).
  assert (Hmain : calls (main env cfg w)
                  = ([AxiosGet (Some (search_url env cfg (query cfg)))]
                     ++ t2
                     ++ [request cfg (provider cfg) (query cfg) contents;
                         ConsoleLogSummary (JStr summary)])%list).
  { unfold main, bind. rewrite Hsearch, (nonempty_length _ Hlocs), Hloop.
    unfold eval. rewrite (upper_case_of_string cfg m Hm).
    cbn [app]. rewrite main_dispatch, Hsyn. reflexivity. }
  assert (Hc : List.length contents = List.length locs).
  { rewrite <- (length_map link locs). eapply runs_each_length. exact R. }
  exists contents. rewrite Hmain, !filter_app, !length_app, Ps, Os, Hc.
  repeat split.
  - exact Hlen.
  - destruct (provider cfg); reflexivity.
  - destruct s, (provider cfg); simpl; lia.
Qed.

Lemma provider_gets_limited_excerpts_witness :
  let env := Scripted.env Cases.seven_pages in
  let cfg := Scripted.config "cheerio" "openai" 3 "test" in
  (1 <= numResults cfg)%Z
  /\ model cfg = JStr "openai"
  /\ exists contents,
       List.length contents = 3
       /\ filter is_post (calls (main env cfg None))
          = [request cfg ProviderA "test" contents]
       /\ List.length (filter (opens LightweightFetch)
                         (calls (main env cfg None)))
          = List.length contents + 1.
Proof.
  cbv zeta. split; [vm_compute; discriminate|]. split; [reflexivity|].
  apply (provider_gets_limited_excerpts (Scripted.env Cases.seven_pages)
           (Scripted.config "cheerio" "openai" 3 "test") LightweightFetch
           "openai" None (map Scripted.numbered [1; 2; 3; 4; 5; 6; 7]) None).
  - vm_compute. discriminate.
  - reflexivity.
  - reflexivity.
  - discriminate.
  - reflexivity.
  - discriminate.
Defined.



(** The run of that witness, call by call: the page is fetched and the run
    ends there. *)
Example model_5_run :
  main (Scripted.env Cases.short_page)
    (Cases.with_model (JNum 5) (Scripted.config "cheerio" "openai" 5 "x"))
    None
  = (Thrown TypeError, None,
     [AxiosGet
        (Some "https://www.googleapis.com/customsearch/v1?q=x&key=key&cx=cx");
      AxiosGet Scripted.page_url]).
Proof. reflexivity. Qed.
